(** * The airdrop endpoint of [web3/api/airdrop.js]

    A shallow embedding of the request handler and of the JavaScript
    primitives it relies on, followed by the properties of the handler.

    The blockchain client ([@solana/web3.js], [@solana/spl-token], [bs58])
    and the language built-ins whose results the handler only forwards
    ([JSON.parse], typed-array construction, number printing) are a record
    of functions, [Sdk]: every statement quantifies over all of them.
    Numbers are IEEE 754 binary64 values, as in JavaScript. *)

From Stdlib Require Import ZArith List String Ascii Bool.
From Stdlib Require Import Floats.SpecFloat.
Import ListNotations.

#[local] Open Scope string_scope.
#[local] Open Scope Z_scope.
#[local] Set Warnings "-register-all".

(** ** JavaScript numbers *)

(** A JavaScript Number is a binary64 float: 53 bits of precision,
    exponents below 1024, one NaN. *)
Definition number : Type := spec_float.

Module Number.

Definition prec : Z := 53.
Definition emax : Z := 1024.

Definition NaN : number := S754_nan.

(** The Number nearest to an integer (round to nearest, ties to even). *)
Definition of_Z (z : Z) : number := binary_normalize prec emax z 0 false.

(** [x * y] *)
Definition mul (x y : number) : number := SFmul prec emax x y.

(** [x / y] *)
Definition div (x y : number) : number := SFdiv prec emax x y.

(** [x < y] on two Numbers: false as soon as one of them is NaN. *)
Definition lt (x y : number) : bool := SFltb x y.

Definition isNaN (x : number) : bool :=
  match x with S754_nan => true | _ => false end.

(** ToBoolean on a Number: [0], [-0] and [NaN] are falsy. *)
Definition truthy (x : number) : bool :=
  match x with
  | S754_zero _ | S754_nan => false
  | _ => true
  end.

(** [Math.pow(10, 9)], which is exactly one billion. *)
Definition Math_pow_10_9 : number := of_Z (10 ^ 9).

(** The integer a Number stands for, when it is a finite integer. *)
Definition to_Z (x : number) : option Z :=
  match x with
  | S754_zero _ => Some 0
  | S754_finite s m e =>
      if 0 <=? e then Some (cond_Zopp s (Zpos m * 2 ^ e))
      else if (Zpos m) mod (2 ^ (- e)) =? 0
           then Some (cond_Zopp s (Zpos m / 2 ^ (- e)))
           else None
  | _ => None
  end.

End Number.

(** ** JavaScript strings *)

Module Str.

(** [s.startsWith(p)] *)
Definition startsWith (s p : string) : bool := String.prefix p s.

(** [s.includes(sub)] *)
Fixpoint includes (s sub : string) : bool :=
  String.prefix sub s
  || match s with
     | EmptyString => false
     | String _ rest => includes rest sub
     end.

(** ToBoolean on a string: only the empty string is falsy. *)
Definition truthy (s : string) : bool :=
  match s with EmptyString => false | _ => true end.

(** White space skipped by [parseInt] (the ASCII part of StrWhiteSpaceChar:
    TAB, LF, VT, FF, CR, SP). *)
Definition is_white_space (c : ascii) : bool :=
  let n := Z.of_nat (nat_of_ascii c) in
  ((9 <=? n) && (n <=? 13)) || (n =? 32).

Fixpoint trimStart (s : string) : string :=
  match s with
  | String c rest => if is_white_space c then trimStart rest else s
  | EmptyString => s
  end.

(** The value of a character as a digit, up to radix 36. *)
Definition digit_value (c : ascii) : option Z :=
  let n := Z.of_nat (nat_of_ascii c) in
  if (48 <=? n) && (n <=? 57) then Some (n - 48)
  else if (97 <=? n) && (n <=? 122) then Some (n - 87)
  else if (65 <=? n) && (n <=? 90) then Some (n - 55)
  else None.

(** The longest prefix of [s] made of radix-[R] digits, read as an
    integer; [acc] is [None] until a first digit has been read. *)
Fixpoint read_digits (R : Z) (s : string) (acc : option Z) : option Z :=
  match s with
  | EmptyString => acc
  | String c rest =>
      match digit_value c with
      | Some d =>
          if d <? R
          then read_digits R rest
                 (Some (match acc with Some a => a * R + d | None => d end))
          else acc
      | None => acc
      end
  end.

(** [parseInt(s)] with no radix argument. *)
Definition parseInt (s : string) : number :=
  let S0 := trimStart s in
  let '(neg, S1) :=
    match S0 with
    | String "-" rest => (true, rest)
    | String "+" rest => (false, rest)
    | _ => (false, S0)
    end in
  let '(R, S2) :=
    match S1 with
    | String "0" (String "x" rest) => (16, rest)
    | String "0" (String "X" rest) => (16, rest)
    | _ => (10, S1)
    end in
  match read_digits R S2 None with
  | None => Number.NaN
  | Some mathInt =>
      if mathInt =? 0 then S754_zero neg
      else Number.of_Z (if neg then - mathInt else mathInt)
  end.

End Str.

(** ** JSON values, as a request body carries them *)

Inductive json : Type :=
| JNull
| JBool (b : bool)
| JNum (n : number)
| JStr (s : string)
| JArr (items : list json)
| JObj (fields : list (string * json)).

Module Json.

(** ToBoolean *)
Definition truthy (v : json) : bool :=
  match v with
  | JNull => false
  | JBool b => b
  | JNum n => Number.truthy n
  | JStr s => Str.truthy s
  | JArr _ | JObj _ => true
  end.

(** The value of key [k] in an object's fields, the last binding of a
    repeated key winning, as [JSON.parse] builds objects. *)
Fixpoint lookup (k : string) (fields : list (string * json)) : option json :=
  match fields with
  | [] => None
  | (k', v) :: rest =>
      match lookup k rest with
      | Some w => Some w
      | None => if String.eqb k k' then Some v else None
      end
  end.

Definition is_null (v : json) : bool :=
  match v with JNull => true | _ => false end.

(** [v[k]] for a value that is neither [null] nor [undefined]; [None] is
    [undefined]. Primitives and arrays have no such own property. *)
Definition get (v : json) (k : string) : option json :=
  match v with
  | JObj fields => lookup k fields
  | _ => None
  end.

End Json.


(** ** Exceptions, HTTP responses *)

(** What a [throw] carries, as far as the handler looks at it: an object
    whose [message] is a string (every [Error]), [null] or [undefined], or
    any other value without a [message]; [shown] is how the console prints
    that value. Objects whose [message] is not a string are left out. *)
Inductive thrown : Type :=
| JsError (message : string)
| ThrownNullish (is_null : bool)
| ThrownOther (shown : string).

(** What an external call gives back: a value, or an exception. *)
Inductive result (A : Type) : Type :=
| Ok (a : A)
| Raise (e : thrown).

Arguments Ok {A} a.
Arguments Raise {A} e.

(** The JSON body of a response: [{error}] or
    [{success: true, signature, amount, message}]. *)
Inductive body : Type :=
| ErrorBody (error : string)
| SuccessBody (signature : string) (amount : number) (message : string).

(** [res.status(status).json(payload)] *)
Record response : Type := { status : Z; payload : body }.

(** How a call of the handler ends: with a response, or with the exception
    that escaped it and no response. *)
Inductive outcome : Type :=
| Responded (r : response)
| Rejected (e : thrown).

(** The request, as far as the handler reads it; a [body] of [None] is
    [undefined]. *)
Record Request : Type := { req_method : string; req_body : option json }.

(** [process.env]: an unset variable is [None]. *)
Record Env : Type := {
  SENDER_PRIVATE_KEY : option string;
  TOKEN_MINT_ADDRESS : option string;
  RPC_URL : option string;
  TOKEN_AMOUNT : option string
}.

Module EnvVar.

(** ToBoolean on a variable: unset and empty are falsy. *)
Definition truthy (v : option string) : bool :=
  match v with Some s => Str.truthy s | None => false end.

(** [v || fallback] *)
Definition or_else (v : option string) (fallback : string) : string :=
  match v with
  | Some s => if Str.truthy s then s else fallback
  | None => fallback
  end.

(** The text of a variable known to be truthy. *)
Definition text (v : option string) : string :=
  match v with Some s => s | None => "" end.

End EnvVar.

(** The value of [getTokenAccountBalance]: the balance in base units, the
    decimals of the mint, and the balance in whole tokens, [null] when the
    node does not compute it. *)
Record TokenAmount : Type := {
  amount : Z;
  decimals : Z;
  uiAmount : option number
}.

(** ToNumber on a value that is a Number or [null]. *)
Definition ToNumber (v : option number) : number :=
  match v with Some n => n | None => S754_zero false end.

(** The messages of the TypeErrors the engine raises (V8's wording). *)
Definition TypeError_destructure (of_null : bool) : thrown :=
  JsError ("Cannot destructure property 'walletAddress' of 'req.body' as it is "
           ++ (if of_null then "null" else "undefined") ++ ".").

Definition TypeError_read (of_null : bool) (property : string) : thrown :=
  JsError ("Cannot read properties of "
           ++ (if of_null then "null" else "undefined")
           ++ " (reading '" ++ property ++ "')").

(** ** Control flow

    A statement completes normally with a value, leaves the handler
    through [return res.status(..).json(..)], or throws. A computation is
    the events it emits and its completion. *)
Inductive completion (A : Type) : Type :=
| Normal (a : A)
| Return (r : response)
| Throw (e : thrown).

Arguments Normal {A} a.
Arguments Return {A} r.
Arguments Throw {A} e.

(** ** The handler *)

Section Airdrop.

(** The objects of the client library, which the handler only passes
    on. *)
Context {PublicKey Keypair Connection AccountInfo Instruction Blockhash : Type}.

(** [new Transaction()] and what the handler sets on it. *)
Record Transaction : Type := {
  instructions : list Instruction;
  recentBlockhash : option Blockhash;
  feePayer : option PublicKey
}.

Definition Transaction_new : Transaction :=
  {| instructions := []; recentBlockhash := None; feePayer := None |}.

(** [transaction.add(instruction)] *)
Definition Transaction_add (t : Transaction) (i : Instruction) : Transaction :=
  {| instructions := (instructions t ++ [i])%list;
     recentBlockhash := recentBlockhash t;
     feePayer := feePayer t |}.

Definition set_recentBlockhash (t : Transaction) (b : Blockhash) : Transaction :=
  {| instructions := instructions t;
     recentBlockhash := Some b;
     feePayer := feePayer t |}.

Definition set_feePayer (t : Transaction) (p : PublicKey) : Transaction :=
  {| instructions := instructions t;
     recentBlockhash := recentBlockhash t;
     feePayer := Some p |}.

(** The external collaborators. Each function is one entry point of the
    client library or one built-in, with the arguments the handler gives
    it; [Raise] is a thrown exception or a rejected promise. *)
Record Sdk : Type := {
  (** [new PublicKey(value)] *)
  PublicKey_new : json -> result PublicKey;
  (** [JSON.parse(text)] *)
  JSON_parse : string -> result json;
  (** [new Uint8Array(value)] on a parsed JSON value *)
  Uint8Array_from : json -> result (list Byte.byte);
  (** [(await import('bs58')).default.decode(text)] *)
  bs58_decode : string -> result (list Byte.byte);
  (** [Keypair.fromSecretKey(bytes)] *)
  Keypair_fromSecretKey : list Byte.byte -> result Keypair;
  (** [keypair.publicKey] *)
  publicKey : Keypair -> PublicKey;
  (** [new Connection(endpoint, commitment)] *)
  Connection_new : string -> string -> result Connection;
  (** [getAssociatedTokenAddress(mint, owner)] *)
  getAssociatedTokenAddress : PublicKey -> PublicKey -> result PublicKey;
  (** [connection.getTokenAccountBalance(account)], its [value] *)
  getTokenAccountBalance : Connection -> PublicKey -> result TokenAmount;
  (** [connection.getAccountInfo(account)]; [None] is [null] *)
  getAccountInfo : Connection -> PublicKey -> result (option AccountInfo);
  (** [createAssociatedTokenAccountInstruction(payer, account, owner, mint)] *)
  createAssociatedTokenAccountInstruction :
    PublicKey -> PublicKey -> PublicKey -> PublicKey -> result Instruction;
  (** [createTransferInstruction(source, destination, owner, amount)] *)
  createTransferInstruction :
    PublicKey -> PublicKey -> PublicKey -> number -> result Instruction;
  (** [connection.getLatestBlockhash()], its [blockhash] *)
  getLatestBlockhash : Connection -> result Blockhash;
  (** [sendAndConfirmTransaction(connection, transaction, signers,
      {commitment})] *)
  sendAndConfirmTransaction :
    Connection -> Transaction -> list Keypair -> string -> result string;
  (** The text of a Number inside a template literal *)
  Number_toString : number -> string
}.

(** What a run does that can be seen from outside, in order: console
    output, reads of the configuration, calls of the collaborators. *)
Inductive event : Type :=
| ConsoleError (label : string) (value : option thrown)
| ConsoleLog (text : string)
| EnvRead (name : string)
| NewPublicKey (value : json)
| JsonParse (text : string)
| NewUint8Array (value : json)
| Bs58Decode (text : string)
| KeypairFromSecretKey (bytes : list Byte.byte)
| NewConnection (endpoint commitment : string)
| GetAssociatedTokenAddress (mint owner : PublicKey)
| GetTokenAccountBalance (connection : Connection) (account : PublicKey)
| GetAccountInfo (connection : Connection) (account : PublicKey)
| NewTransaction
| CreateAssociatedTokenAccountInstruction (payer account owner mint : PublicKey)
| CreateTransferInstruction (source destination owner : PublicKey) (amount : number)
| TransactionAdd (instruction : Instruction)
| GetLatestBlockhash (connection : Connection)
| SendAndConfirmTransaction (connection : Connection) (transaction : Transaction)
    (signers : list Keypair) (commitment : string).

Definition M (A : Type) : Type := list event * completion A.

Definition ret {A} (a : A) : M A := ([], Normal a).

Definition bind {A B} (m : M A) (k : A -> M B) : M B :=
  match m with
  | (t, Normal a) => let '(t', c) := k a in ((t ++ t')%list, c)
  | (t, Return r) => (t, Return r)
  | (t, Throw e) => (t, Throw e)
  end.

(** [try { m } catch (error) { h error }] *)
Definition try_catch {A} (m : M A) (h : thrown -> M A) : M A :=
  match m with
  | (t, Throw e) => let '(t', c) := h e in ((t ++ t')%list, c)
  | other => other
  end.

Definition throw {A} (e : thrown) : M A := ([], Throw e).

(** [return res.status(code).json(payload)] *)
Definition respond {A} (code : Z) (p : body) : M A :=
  ([], Return {| status := code; payload := p |}).

Definition emit (e : event) : M unit := ([e], Normal tt).

(** A call of a collaborator: the call is recorded, its exception
    thrown. *)
Definition call {A} (e : event) (r : result A) : M A :=
  ([e], match r with Ok a => Normal a | Raise x => Throw x end).

Notation "x <- m ;; k" := (bind m (fun x => k))
  (at level 61, m at next level, right associativity).
Notation "m ;; k" := (bind m (fun _ => k))
  (at level 61, right associativity).

Definition console_error (label : string) (value : option thrown) : M unit :=
  emit (ConsoleError label value).

Definition console_log (text : string) : M unit :=
  emit (ConsoleLog text).

(** [process.env.NAME] *)
Definition getenv (name : string) (value : option string) : M (option string) :=
  emit (EnvRead name) ;; ret value.

Variable sdk : Sdk.
Variable env : Env.

(** Line 11: [const { walletAddress } = req.body]. Destructuring
    [undefined] or [null] throws; [None] is an [undefined] property. *)
Definition destructure_walletAddress (b : option json) : M (option json) :=
  match b with
  | None => throw (TypeError_destructure false)
  | Some v =>
      if Json.is_null v then throw (TypeError_destructure true)
      else ret (Json.get v "walletAddress")
  end.

(** Lines 30: [parseInt(process.env.TOKEN_AMOUNT || '25000')] *)
Definition parse_token_amount (value : option string) : number :=
  Str.parseInt (EnvVar.or_else value "25000").

(** Lines 39-55: the sender's key pair from the configured credential.
    [Array.from] of the decoded bytes followed by [new Uint8Array] gives
    the decoded bytes back. *)
Definition parse_sender_key (senderPrivateKey : string) : M Keypair :=
  try_catch
    (privateKeyBytes <-
       (if Str.startsWith senderPrivateKey "["
        then
          privateKeyArray <-
            call (JsonParse senderPrivateKey) (JSON_parse sdk senderPrivateKey) ;;
          call (NewUint8Array privateKeyArray) (Uint8Array_from sdk privateKeyArray)
        else
          call (Bs58Decode senderPrivateKey) (bs58_decode sdk senderPrivateKey)) ;;
     call (KeypairFromSecretKey privateKeyBytes)
          (Keypair_fromSecretKey sdk privateKeyBytes))
    (fun error =>
       console_error "Error parsing private key:" (Some error) ;;
       respond 500 (ErrorBody "Invalid sender private key format")).

(** Lines 82-87: the recipient's token account, [None] when there is none
    or when the query fails. *)
Definition recipient_account_info (connection : Connection)
    (recipientTokenAccount : PublicKey) : M (option AccountInfo) :=
  try_catch
    (call (GetAccountInfo connection recipientTokenAccount)
          (getAccountInfo sdk connection recipientTokenAccount))
    (fun error =>
       console_error "Error checking recipient token account:" (Some error) ;;
       ret None).

(** Lines 89-110: the transaction and its instructions. *)
Definition assemble_transaction (senderKeypair : Keypair)
    (senderTokenAccount recipientTokenAccount recipientPublicKey mintPublicKey : PublicKey)
    (tokenAmount : number) (recipientTokenAccountInfo : option AccountInfo)
    : M Transaction :=
  transaction <- (emit NewTransaction ;; ret Transaction_new) ;;
  transaction <-
    match recipientTokenAccountInfo with
    | None =>
        createATAInstruction <-
          call (CreateAssociatedTokenAccountInstruction
                  (publicKey sdk senderKeypair) recipientTokenAccount
                  recipientPublicKey mintPublicKey)
               (createAssociatedTokenAccountInstruction sdk
                  (publicKey sdk senderKeypair) recipientTokenAccount
                  recipientPublicKey mintPublicKey) ;;
        emit (TransactionAdd createATAInstruction) ;;
        ret (Transaction_add transaction createATAInstruction)
    | Some _ => ret transaction
    end ;;
  let amount := Number.mul tokenAmount Number.Math_pow_10_9 in
  transferInstruction <-
    call (CreateTransferInstruction senderTokenAccount recipientTokenAccount
            (publicKey sdk senderKeypair) amount)
         (createTransferInstruction sdk senderTokenAccount recipientTokenAccount
            (publicKey sdk senderKeypair) amount) ;;
  emit (TransactionAdd transferInstruction) ;;
  ret (Transaction_add transaction transferInstruction).

Definition success_message (tokenAmount : number) : string :=
  "Successfully airdropped " ++ Number_toString sdk tokenAmount ++ " DUCK tokens".

(** Lines 10-133: the body of the [try]. It never falls through: it
    returns a response or throws. *)
Definition try_block (req : Request) : M Empty_set :=
  walletAddress <- destructure_walletAddress (req_body req) ;;
  match walletAddress with
  | None => respond 400 (ErrorBody "Wallet address is required")
  | Some walletAddress =>
  if negb (Json.truthy walletAddress)
  then respond 400 (ErrorBody "Wallet address is required")
  else
  recipientPublicKey <-
    try_catch
      (call (NewPublicKey walletAddress) (PublicKey_new sdk walletAddress))
      (fun _ => respond 400 (ErrorBody "Invalid wallet address format")) ;;
  senderPrivateKey <- getenv "SENDER_PRIVATE_KEY" (SENDER_PRIVATE_KEY env) ;;
  tokenMintAddress <- getenv "TOKEN_MINT_ADDRESS" (TOKEN_MINT_ADDRESS env) ;;
  rpcUrl <- getenv "RPC_URL" (RPC_URL env) ;;
  tokenAmountText <- getenv "TOKEN_AMOUNT" (TOKEN_AMOUNT env) ;;
  let tokenAmount := parse_token_amount tokenAmountText in
  if negb (EnvVar.truthy senderPrivateKey)
     || negb (EnvVar.truthy tokenMintAddress)
     || negb (EnvVar.truthy rpcUrl)
  then
    console_error "Missing environment variables" None ;;
    respond 500 (ErrorBody "Server configuration error")
  else
  let senderPrivateKey := EnvVar.text senderPrivateKey in
  let tokenMintAddress := EnvVar.text tokenMintAddress in
  let rpcUrl := EnvVar.text rpcUrl in
  senderKeypair <- parse_sender_key senderPrivateKey ;;
  connection <-
    call (NewConnection rpcUrl "confirmed") (Connection_new sdk rpcUrl "confirmed") ;;
  mintPublicKey <-
    call (NewPublicKey (JStr tokenMintAddress))
         (PublicKey_new sdk (JStr tokenMintAddress)) ;;
  senderTokenAccount <-
    call (GetAssociatedTokenAddress mintPublicKey (publicKey sdk senderKeypair))
         (getAssociatedTokenAddress sdk mintPublicKey (publicKey sdk senderKeypair)) ;;
  recipientTokenAccount <-
    call (GetAssociatedTokenAddress mintPublicKey recipientPublicKey)
         (getAssociatedTokenAddress sdk mintPublicKey recipientPublicKey) ;;
  senderBalance <-
    call (GetTokenAccountBalance connection senderTokenAccount)
         (getTokenAccountBalance sdk connection senderTokenAccount) ;;
  if Number.lt (ToNumber (uiAmount senderBalance)) tokenAmount
  then respond 400 (ErrorBody "insufficient_token_balance")
  else
  recipientTokenAccountInfo <-
    recipient_account_info connection recipientTokenAccount ;;
  transaction <-
    assemble_transaction senderKeypair senderTokenAccount recipientTokenAccount
      recipientPublicKey mintPublicKey tokenAmount recipientTokenAccountInfo ;;
  blockhash <-
    call (GetLatestBlockhash connection) (getLatestBlockhash sdk connection) ;;
  let transaction := set_recentBlockhash transaction blockhash in
  let transaction := set_feePayer transaction (publicKey sdk senderKeypair) in
  signature <-
    call (SendAndConfirmTransaction connection transaction [senderKeypair]
            "confirmed")
         (sendAndConfirmTransaction sdk connection transaction [senderKeypair]
            "confirmed") ;;
  console_log ("Airdrop successful: " ++ signature) ;;
  respond 200 (SuccessBody signature tokenAmount (success_message tokenAmount))
  end.

(** [error.message]: reading a property of [null] or [undefined] throws;
    [None] is [undefined]. *)
Definition error_message (error : thrown) : M (option string) :=
  match error with
  | JsError message => ret (Some message)
  | ThrownNullish is_null => throw (TypeError_read is_null "message")
  | ThrownOther _ => ret None
  end.

(** Lines 134-145: the [catch] of the outer [try]. *)
Definition top_level_catch (error : thrown) : M Empty_set :=
  console_error "Airdrop error:" (Some error) ;;
  message <- error_message error ;;
  match message with
  | None => throw (TypeError_read false "includes")
  | Some message =>
      if Str.includes message "already in use"
      then respond 400 (ErrorBody "already_claimed_or_has_balance")
      else respond 500 (ErrorBody (if Str.truthy message then message
                                   else "Internal server error during airdrop"))
  end.

(** The outcome of a computation that cannot complete normally. *)
Definition finish (m : M Empty_set) : list event * outcome :=
  match m with
  | (t, Return r) => (t, Responded r)
  | (t, Throw e) => (t, Rejected e)
  | (_, Normal nothing) => match nothing with end
  end.

(** Lines 4-146: [handler(req, res)]. *)
Definition handler (req : Request) : list event * outcome :=
  if negb (String.eqb (req_method req) "POST")
  then ([], Responded {| status := 405; payload := ErrorBody "Method not allowed" |})
  else finish (try_catch (try_block req) top_level_catch).

(** The events of a run, and how it ends. *)
Definition trace_of (req : Request) : list event := fst (handler req).

Definition outcome_of (req : Request) : outcome := snd (handler req).

(** The exception with which the collaborator answered a recorded call, if
    it answered with one. *)
Definition raised (e : event) : option thrown :=
  let failure {A} (r : result A) :=
    match r with Raise x => Some x | Ok _ => None end in
  match e with
  | ConsoleError _ _ | ConsoleLog _ | EnvRead _ | NewTransaction
  | TransactionAdd _ => None
  | NewPublicKey value => failure (PublicKey_new sdk value)
  | JsonParse text => failure (JSON_parse sdk text)
  | NewUint8Array value => failure (Uint8Array_from sdk value)
  | Bs58Decode text => failure (bs58_decode sdk text)
  | KeypairFromSecretKey bytes => failure (Keypair_fromSecretKey sdk bytes)
  | NewConnection endpoint commitment =>
      failure (Connection_new sdk endpoint commitment)
  | GetAssociatedTokenAddress mint owner =>
      failure (getAssociatedTokenAddress sdk mint owner)
  | GetTokenAccountBalance connection account =>
      failure (getTokenAccountBalance sdk connection account)
  | GetAccountInfo connection account =>
      failure (getAccountInfo sdk connection account)
  | CreateAssociatedTokenAccountInstruction payer account owner mint =>
      failure (createAssociatedTokenAccountInstruction sdk payer account owner mint)
  | CreateTransferInstruction source destination owner amount =>
      failure (createTransferInstruction sdk source destination owner amount)
  | GetLatestBlockhash connection => failure (getLatestBlockhash sdk connection)
  | SendAndConfirmTransaction connection transaction signers commitment =>
      failure (sendAndConfirmTransaction sdk connection transaction signers commitment)
  end.

(** The signature with which a recorded submission was confirmed. *)
Definition confirmed (e : event) : option string :=
  match e with
  | SendAndConfirmTransaction connection transaction signers commitment =>
      match sendAndConfirmTransaction sdk connection transaction signers commitment with
      | Ok signature => Some signature
      | Raise _ => None
      end
  | _ => None
  end.

(** The key pair that the configured credential stands for: the text is
    read as a JSON array of byte values when it begins with an opening
    bracket, as base58 otherwise, and the bytes must make a key pair. *)
Definition sender_keypair (credential : string) : result Keypair :=
  match
    (if Str.startsWith credential "["
     then match JSON_parse sdk credential with
          | Ok value => Uint8Array_from sdk value
          | Raise e => Raise e
          end
     else bs58_decode sdk credential)
  with
  | Ok bytes => Keypair_fromSecretKey sdk bytes
  | Raise e => Raise e
  end.

(** The token amount of the configuration, as line 30 computes it. *)
Definition tokenAmount : number := parse_token_amount (TOKEN_AMOUNT env).

End Airdrop.

(** The events of a trace that [f] selects, as [f] reads them. *)
Definition select {PublicKey Keypair Connection Instruction Blockhash A : Type}
    (f : @event PublicKey Keypair Connection Instruction Blockhash -> option A)
    (t : list (@event PublicKey Keypair Connection Instruction Blockhash)) : list A :=
  flat_map (fun ev => match f ev with Some a => [a] | None => [] end) t.

(** The instructions added to the transaction of a run, in order. *)
Definition added {PublicKey Keypair Connection Instruction Blockhash : Type}
    (t : list (@event PublicKey Keypair Connection Instruction Blockhash))
    : list Instruction :=
  flat_map (fun e => match e with TransactionAdd i => [i] | _ => [] end) t.

Definition submits {PublicKey Keypair Connection Instruction Blockhash : Type}
    (e : @event PublicKey Keypair Connection Instruction Blockhash) : bool :=
  match e with SendAndConfirmTransaction _ _ _ _ => true | _ => false end.

(** The responses with a fixed body. *)
Definition refusal (code : Z) (error : string) : outcome :=
  Responded {| status := code; payload := ErrorBody error |}.

Definition method_not_allowed : outcome := refusal 405 "Method not allowed".
Definition address_required : outcome := refusal 400 "Wallet address is required".
Definition invalid_address : outcome := refusal 400 "Invalid wallet address format".
Definition configuration_error : outcome := refusal 500 "Server configuration error".
Definition invalid_sender_key : outcome := refusal 500 "Invalid sender private key format".
Definition insufficient_balance : outcome := refusal 400 "insufficient_token_balance".
Definition already_claimed : outcome := refusal 400 "already_claimed_or_has_balance".

(** The response of the outer [catch] to an exception whose message is a
    string. *)
Definition classified_response (message : string) : response :=
  if Str.includes message "already in use"
  then {| status := 400; payload := ErrorBody "already_claimed_or_has_balance" |}
  else {| status := 500;
          payload := ErrorBody (if Str.truthy message then message
                                else "Internal server error during airdrop") |}.

Definition classified (message : string) : outcome :=
  Responded (classified_response message).

(** The events of a trace that follow the making of the sender's key
    pair. *)
Fixpoint after_keypair {PublicKey Keypair Connection Instruction Blockhash : Type}
    (t : list (@event PublicKey Keypair Connection Instruction Blockhash))
    : list (@event PublicKey Keypair Connection Instruction Blockhash) :=
  match t with
  | [] => []
  | KeypairFromSecretKey _ :: rest => rest
  | _ :: rest => after_keypair rest
  end.

Definition is_account_query {PublicKey Keypair Connection Instruction Blockhash : Type}
    (e : @event PublicKey Keypair Connection Instruction Blockhash) : bool :=
  match e with GetAccountInfo _ _ => true | _ => false end.

Definition is_json_parse {PublicKey Keypair Connection Instruction Blockhash : Type}
    (e : @event PublicKey Keypair Connection Instruction Blockhash) : bool :=
  match e with JsonParse _ => true | _ => false end.

Definition is_base58_decode {PublicKey Keypair Connection Instruction Blockhash : Type}
    (e : @event PublicKey Keypair Connection Instruction Blockhash) : bool :=
  match e with Bs58Decode _ => true | _ => false end.

(** The text of a thrown value when the console prints it. *)
Definition thrown_text (e : thrown) : string :=
  match e with
  | JsError message => message
  | ThrownNullish is_null => if is_null then "null" else "undefined"
  | ThrownOther shown => shown
  end.

(** The strings a response or a console line shows. *)
Definition response_strings (o : outcome) : list string :=
  match o with
  | Responded {| payload := ErrorBody error |} => [error]
  | Responded {| payload := SuccessBody signature _ message |} => [signature; message]
  | Rejected _ => []
  end.

Definition console_strings (line : string * option thrown) : list string :=
  match line with
  | (label, Some e) => [label; thrown_text e]
  | (label, None) => [label]
  end.

(** The balance in whole tokens that a node reports for [amount] base
    units of a mint with [decimals] decimals: the quotient of the two as
    Numbers ([uiAmount] in the RPC interface of the chain). *)
Definition rpc_uiAmount (amount decimals : Z) : number :=
  Number.div (Number.of_Z amount) (Number.of_Z (10 ^ decimals)).

(** What a run writes to the console, in order. *)
Definition console_output {PublicKey Keypair Connection Instruction Blockhash : Type}
    (t : list (@event PublicKey Keypair Connection Instruction Blockhash))
    : list (string * option thrown) :=
  flat_map (fun e =>
              match e with
              | ConsoleError label value => [(label, value)]
              | ConsoleLog text => [(text, None)]
              | _ => []
              end) t.

(** Every string that a run shows: the console lines, then the body of
    the response. *)
Definition visible_strings {PublicKey Keypair Connection Instruction Blockhash : Type}
    (run : list (@event PublicKey Keypair Connection Instruction Blockhash) * outcome)
    : list string :=
  (flat_map console_strings (console_output (fst run)) ++ response_strings (snd run))%list.

(** The texts that the handler writes itself: its string literals, and the
    messages of the TypeErrors that it can show. *)
Definition handler_literals : list string :=
  [ "Method not allowed";
    "Wallet address is required";
    "Invalid wallet address format";
    "Missing environment variables";
    "Server configuration error";
    "Error parsing private key:";
    "Invalid sender private key format";
    "insufficient_token_balance";
    "Error checking recipient token account:";
    "Airdrop error:";
    "already_claimed_or_has_balance";
    "Internal server error during airdrop";
    thrown_text (TypeError_destructure false);
    thrown_text (TypeError_destructure true) ].


(** ** Kinds of events and inputs *)

Section Kinds.

Context {PublicKey Keypair Connection Instruction Blockhash : Type}.

Implicit Types (e : @event PublicKey Keypair Connection Instruction Blockhash).

(** The requests that the handler sends to the node. *)
Definition is_rpc_call e : bool :=
  match e with
  | GetTokenAccountBalance _ _ | GetAccountInfo _ _ | GetLatestBlockhash _
  | SendAndConfirmTransaction _ _ _ _ => true
  | _ => false
  end.

Definition is_balance_query e : bool :=
  match e with GetTokenAccountBalance _ _ => true | _ => false end.

Definition is_blockhash_query e : bool :=
  match e with GetLatestBlockhash _ => true | _ => false end.

(** What the handler does once the balance check has passed. *)
Definition follows_balance_check e : bool :=
  match e with
  | GetAccountInfo _ _ | NewTransaction
  | CreateAssociatedTokenAccountInstruction _ _ _ _
  | CreateTransferInstruction _ _ _ _ | TransactionAdd _
  | GetLatestBlockhash _ | SendAndConfirmTransaction _ _ _ _ => true
  | _ => false
  end.

Definition is_console_error e : bool :=
  match e with ConsoleError _ _ => true | _ => false end.

(** How many events of a trace are of a kind. *)
Definition count_events (kind : @event PublicKey Keypair Connection Instruction Blockhash
                                -> bool)
    (t : list (@event PublicKey Keypair Connection Instruction Blockhash)) : nat :=
  List.length (filter kind t).

End Kinds.

(** [!walletAddress] after [const { walletAddress } = body], for a body
    that is neither [null] nor [undefined]. *)
Definition address_is_absent (b : json) : bool :=
  match Json.get b "walletAddress" with
  | Some walletAddress => negb (Json.truthy walletAddress)
  | None => true
  end.

(** The decimal digits, and the texts made of them. *)
Definition is_decimal_digit (c : ascii) : bool :=
  match Str.digit_value c with
  | Some d => d <? 10
  | None => false
  end.

Fixpoint all_decimal (s : string) : bool :=
  match s with
  | EmptyString => true
  | String c rest => is_decimal_digit c && all_decimal rest
  end.

(** What may follow the digits of a decimal text for [parseInt] to stop
    there: nothing, or a character that is neither a decimal digit nor the
    [x] of a hexadecimal prefix. *)
Definition ends_decimal (rest : string) : bool :=
  match rest with
  | EmptyString => true
  | String c _ =>
      negb (is_decimal_digit c) && negb (Ascii.eqb c "x") && negb (Ascii.eqb c "X")
  end.

(** The Numbers above zero. *)
Definition is_positive (x : number) : bool :=
  match x with
  | S754_finite false _ _ | S754_infinity false => true
  | _ => false
  end.

Section Variants.

Context {PublicKey Keypair Connection AccountInfo Instruction Blockhash : Type}.

(** The same client, on a node that finds no account. *)
Definition without_account
    (sdk : @Sdk PublicKey Keypair Connection AccountInfo Instruction Blockhash)
    : @Sdk PublicKey Keypair Connection AccountInfo Instruction Blockhash :=
  {| PublicKey_new := PublicKey_new sdk;
     JSON_parse := JSON_parse sdk;
     Uint8Array_from := Uint8Array_from sdk;
     bs58_decode := bs58_decode sdk;
     Keypair_fromSecretKey := Keypair_fromSecretKey sdk;
     publicKey := publicKey sdk;
     Connection_new := Connection_new sdk;
     getAssociatedTokenAddress := getAssociatedTokenAddress sdk;
     getTokenAccountBalance := getTokenAccountBalance sdk;
     getAccountInfo := fun _ _ => Ok None;
     createAssociatedTokenAccountInstruction :=
       createAssociatedTokenAccountInstruction sdk;
     createTransferInstruction := createTransferInstruction sdk;
     getLatestBlockhash := getLatestBlockhash sdk;
     sendAndConfirmTransaction := sendAndConfirmTransaction sdk;
     Number_toString := Number_toString sdk |}.

(** The line logged when the query of the recipient's account fails. *)
Definition logs_account_failure
    (e : @event PublicKey Keypair Connection Instruction Blockhash) : bool :=
  match e with
  | ConsoleError label (Some _) =>
      String.eqb label "Error checking recipient token account:"
  | _ => false
  end.

Definition is_console_log
    (e : @event PublicKey Keypair Connection Instruction Blockhash) : bool :=
  match e with ConsoleLog _ => true | _ => false end.

(** The names of the variables that a run reads, in order. *)
Definition variables_read
    (t : list (@event PublicKey Keypair Connection Instruction Blockhash))
    : list string :=
  select (fun e => match e with EnvRead name => Some name | _ => None end) t.

End Variants.

(** ** A test double of the collaborators

    A client over a ledger with one sender and one recipient, used to run
    the handler on concrete requests. Addresses are base58 text of 32
    bytes, a key pair is its 64 secret bytes, the last 32 of which are the
    public key. *)

Module Double.

Definition alphabet : string :=
  "123456789ABCDEFGHJKLMNPQRSTUVWXYZabcdefghijkmnopqrstuvwxyz".

Fixpoint index_of (c : ascii) (s : string) (i : Z) : option Z :=
  match s with
  | EmptyString => None
  | String d rest => if Ascii.eqb c d then Some i else index_of c rest (i + 1)
  end.

(** The digits of a base58 text as one integer, and the count of leading
    ['1'] characters, each of which stands for a zero byte. *)
Fixpoint base58_value (s : string) (acc : Z) : option Z :=
  match s with
  | EmptyString => Some acc
  | String c rest =>
      match index_of c alphabet 0 with
      | Some d => base58_value rest (acc * 58 + d)
      | None => None
      end
  end.

Fixpoint leading_ones (s : string) : nat :=
  match s with
  | String "1" rest => S (leading_ones rest)
  | _ => O
  end.

Definition byte_of_Z (z : Z) : Byte.byte :=
  match Byte.of_N (Z.to_N (z mod 256)) with
  | Some b => b
  | None => Byte.x00
  end.

(** The big-endian bytes of a positive integer. *)
Fixpoint bytes_of_positive (p : positive) (fuel : nat) (acc : list Byte.byte)
    : list Byte.byte :=
  match fuel with
  | O => acc
  | S fuel' =>
      let z := Zpos p in
      match z / 256 with
      | Zpos q => bytes_of_positive q fuel' (byte_of_Z z :: acc)
      | _ => byte_of_Z z :: acc
      end
  end.

Definition decode (s : string) : result (list Byte.byte) :=
  match base58_value s 0 with
  | None => Raise (JsError "Non-base58 character")
  | Some v =>
      let zeros := repeat Byte.x00 (leading_ones s) in
      Ok (zeros ++ match v with
                   | Zpos p => bytes_of_positive p (String.length s) []
                   | _ => []
                   end)%list
  end.

Definition dquote : string := String (ascii_of_nat 34) EmptyString.

(** A reader of JSON arrays of unsigned integers. On anything else it
    fails the way V8 does on a short text, naming the character it stopped
    at and quoting the text in the message. *)
Fixpoint read_items (s : string) (current : option Z) (acc : list json)
    : list json + option ascii :=
  match s with
  | EmptyString => inr None
  | String c rest =>
      if Ascii.eqb c "]" then
        match rest, current, acc with
        | EmptyString, Some n, _ => inl (rev (JNum (Number.of_Z n) :: acc))
        | EmptyString, None, [] => inl []
        | String c' _, Some _, _ => inr (Some c')
        | String c' _, None, [] => inr (Some c')
        | _, None, _ :: _ => inr (Some c)
        end
      else if Ascii.eqb c "," then
        match current with
        | Some n => read_items rest None (JNum (Number.of_Z n) :: acc)
        | None => inr (Some c)
        end
      else
        match Str.digit_value c with
        | Some d =>
            if d <? 10
            then read_items rest
                   (Some (match current with Some n => n * 10 + d | None => d end))
                   acc
            else inr (Some c)
        | None => inr (Some c)
        end
  end.

Definition syntax_error (at_character : option ascii) (text : string) : string :=
  match at_character with
  | Some c =>
      "Unexpected token '" ++ String c "" ++ "', " ++ dquote ++ text ++ dquote
      ++ " is not valid JSON"
  | None => "Unexpected end of JSON input"
  end.

Definition parse (text : string) : result json :=
  match text with
  | String "[" rest =>
      match read_items rest None [] with
      | inl items => Ok (JArr items)
      | inr at_character => Raise (JsError (syntax_error at_character text))
      end
  | String c _ => Raise (JsError (syntax_error (Some c) text))
  | EmptyString => Raise (JsError (syntax_error None text))
  end.

Definition element_byte (v : json) : Byte.byte :=
  match v with
  | JNum n => match Number.to_Z n with Some z => byte_of_Z z | None => Byte.x00 end
  | _ => Byte.x00
  end.

Definition typed_array (v : json) : result (list Byte.byte) :=
  match v with
  | JArr items => Ok (map element_byte items)
  | _ => Ok []
  end.

Definition address (value : json) : result string :=
  match value with
  | JStr s =>
      match decode s with
      | Ok bytes =>
          if (List.length bytes =? 32)%nat then Ok s
          else Raise (JsError "Invalid public key input")
      | Raise e => Raise e
      end
  | _ => Raise (JsError "Invalid public key input")
  end.

Definition key_pair (bytes : list Byte.byte) : result (list Byte.byte) :=
  if (List.length bytes =? 64)%nat then Ok bytes
  else Raise (JsError "bad secret key size").

Definition digit_char (d : Z) : ascii := ascii_of_nat (Z.to_nat (48 + d)).

Fixpoint decimal (fuel : nat) (n : Z) (acc : string) : string :=
  match fuel with
  | O => acc
  | S fuel' =>
      let acc' := String (digit_char (n mod 10)) acc in
      if n / 10 =? 0 then acc' else decimal fuel' (n / 10) acc'
  end.

(** The text of a Number that is an integer below 10^21, or NaN. *)
Definition number_text (n : number) : string :=
  match Number.to_Z n with
  | Some z =>
      (if z <? 0 then "-" else "")
      ++ decimal (Z.to_nat (Z.log2 (Z.abs z) + 1)) (Z.abs z) ""
  | None => if Number.isNaN n then "NaN" else "Infinity"
  end.

(** A short printed form of the public half of a key pair: its last four
    bytes. *)
Definition public_key (pair : list Byte.byte) : string :=
  "pk:" ++ concat "." (map (fun b => number_text (Number.of_Z (Z.of_N (Byte.to_N b))))
                           (skipn 60 pair)).

Definition connect (endpoint commitment : string) : result string :=
  if Str.startsWith endpoint "http" then Ok endpoint
  else Raise (JsError "Endpoint URL must start with `http:` or `https:`.").

Inductive instruction : Type :=
| CreateAccount (payer account owner mint : string)
| Transfer (source destination owner : string) (amount : number).

(** The transfer instruction holds the amount as an unsigned 64-bit
    integer: a strict client refuses any other Number. *)
Definition transfer (strict : bool) (source destination owner : string)
    (amount : number) : result instruction :=
  if strict then
    match Number.to_Z amount with
    | Some z =>
        if (0 <=? z) && (z <? 2 ^ 64) then Ok (Transfer source destination owner amount)
        else Raise (JsError "The value is out of range")
    | None =>
        Raise (JsError "The number cannot be converted to a BigInt because it is not an integer")
    end
  else Ok (Transfer source destination owner amount).

(** The state of the chain and the behaviour of the node. *)
Record Ledger : Type := {
  sender_balance : result TokenAmount;
  recipient_info : result (option unit);
  strict : bool;
  submission : result string
}.

Definition sdk (l : Ledger)
    : @Sdk string (list Byte.byte) string unit instruction string :=
  {| PublicKey_new := address;
     JSON_parse := parse;
     Uint8Array_from := typed_array;
     bs58_decode := decode;
     Keypair_fromSecretKey := key_pair;
     publicKey := public_key;
     Connection_new := connect;
     getAssociatedTokenAddress := fun mint owner => Ok ("ata:" ++ owner ++ ":" ++ mint);
     getTokenAccountBalance := fun _ _ => sender_balance l;
     getAccountInfo := fun _ _ => recipient_info l;
     createAssociatedTokenAccountInstruction :=
       fun payer account owner mint => Ok (CreateAccount payer account owner mint);
     createTransferInstruction := transfer (strict l);
     getLatestBlockhash := fun _ => Ok "EkSnNWid2cvwEVnVx9aBqawnmiCNiDgp3gUdkDPTKN1N";
     sendAndConfirmTransaction := fun _ _ _ _ => submission l;
     Number_toString := number_text |}.

Definition recipient : string := "11111111111111111111111111111112".
Definition mint : string := "11111111111111111111111111111113".
Definition sender_key : string :=
  "1111111111111111111111111111111111111111111111111111111111111112".

Definition endpoint : string := "https://api.devnet.solana.com".

(** The addresses that the run of a valid request goes through. *)
Definition sender_address : string := "pk:0.0.0.1".
Definition sender_account : string := "ata:" ++ sender_address ++ ":" ++ mint.
Definition recipient_account : string := "ata:" ++ recipient ++ ":" ++ mint.

(** A credential that is not a JSON array. *)
Definition malformed_key : string := "[1,2,x]".

Definition post (wallet : json) : Request :=
  {| req_method := "POST";
     req_body := Some (JObj [("walletAddress", wallet)]) |}.

Definition configured (key : string) (amount : option string) : Env :=
  {| SENDER_PRIVATE_KEY := Some key;
     TOKEN_MINT_ADDRESS := Some mint;
     RPC_URL := Some endpoint;
     TOKEN_AMOUNT := amount |}.

Definition unconfigured : Env :=
  {| SENDER_PRIVATE_KEY := None;
     TOKEN_MINT_ADDRESS := None;
     RPC_URL := None;
     TOKEN_AMOUNT := None |}.

(** A balance of [amount] base units of a mint with [decimals]
    decimals. *)
Definition balance (amount decimals : Z) : TokenAmount :=
  {| amount := amount;
     decimals := decimals;
     uiAmount := Some (rpc_uiAmount amount decimals) |}.

Definition funded (amount decimals : Z) (account : option unit) : Ledger :=
  {| sender_balance := Ok (balance amount decimals);
     recipient_info := Ok account;
     strict := true;
     submission := Ok "5VERv8NMvzbJMEkV8xnrLkEaWRtSz9CosKDYjCJjBRnb" |}.

(** A ledger on which the submission fails. *)
Definition failing (e : thrown) : Ledger :=
  {| sender_balance := Ok (balance 25000000000 6);
     recipient_info := Ok None;
     strict := true;
     submission := Raise e |}.

(** A ledger behind a client that does not check the amount. *)
Definition lenient (amount decimals : Z) : Ledger :=
  {| sender_balance := Ok (balance amount decimals);
     recipient_info := Ok (Some tt);
     strict := false;
     submission := Ok "5VERv8NMvzbJMEkV8xnrLkEaWRtSz9CosKDYjCJjBRnb" |}.

(** A ledger on which the sender holds less than 25000 tokens. *)
Definition poor : Ledger := funded 24999999999 6 None.

(** The request and the configuration of an airdrop of the default
    amount, and what its run gives to the submission. *)
Definition request : Request := post (JStr recipient).

Definition config : Env := configured sender_key None.

Definition sender_pair : list Byte.byte := (repeat Byte.x00 63 ++ [Byte.x01])%list.

Definition airdrop_amount : number := Number.of_Z 25000000000000.

Definition airdrop_transaction
    : @Transaction string instruction string :=
  {| instructions :=
       [ CreateAccount sender_address recipient_account recipient mint;
         Transfer sender_account recipient_account sender_address airdrop_amount ];
     recentBlockhash := Some "EkSnNWid2cvwEVnVx9aBqawnmiCNiDgp3gUdkDPTKN1N";
     feePayer := Some sender_address |}.

Definition submission_call
    : @event string (list Byte.byte) string instruction string :=
  SendAndConfirmTransaction endpoint airdrop_transaction [sender_pair] "confirmed".

(** The error of a submission that creates an account that exists. *)
Definition account_in_use : thrown :=
  JsError "failed to send transaction: Allocate: account Address already in use".

(** A request with another method. *)
Definition get_request : Request :=
  {| req_method := "GET"; req_body := None |}.

(** A ledger whose node fails to answer the query of the recipient's
    account. *)
Definition unreachable_account (e : thrown) : Ledger :=
  {| sender_balance := Ok (balance 25000000000 6);
     recipient_info := Raise e;
     strict := true;
     submission := Ok "5VERv8NMvzbJMEkV8xnrLkEaWRtSz9CosKDYjCJjBRnb" |}.

Definition node_is_down : thrown := JsError "fetch failed".

Definition signature : string := "5VERv8NMvzbJMEkV8xnrLkEaWRtSz9CosKDYjCJjBRnb".

Definition recent_blockhash : string := "EkSnNWid2cvwEVnVx9aBqawnmiCNiDgp3gUdkDPTKN1N".

Definition balance_call
    : @event string (list Byte.byte) string instruction string :=
  GetTokenAccountBalance endpoint sender_account.

Definition account_call
    : @event string (list Byte.byte) string instruction string :=
  GetAccountInfo endpoint recipient_account.

Definition transfer_call
    : @event string (list Byte.byte) string instruction string :=
  CreateTransferInstruction sender_account recipient_account sender_address
    airdrop_amount.

(** A ledger whose node gives the balance without its amount in whole
    tokens. *)
Definition uncomputed : Ledger :=
  {| sender_balance :=
       Ok {| amount := 25000000000; decimals := 6; uiAmount := None |};
     recipient_info := Ok None;
     strict := true;
     submission := Ok "5VERv8NMvzbJMEkV8xnrLkEaWRtSz9CosKDYjCJjBRnb" |}.

(** A POST whose body has no [walletAddress], and a POST without a body. *)
Definition empty_object : Request :=
  {| req_method := "POST"; req_body := Some (JObj []) |}.

Definition no_body : Request :=
  {| req_method := "POST"; req_body := None |}.

(** The response to the airdrop of the default amount. *)
Definition success : response :=
  {| status := 200;
     payload := SuccessBody signature (Number.of_Z 25000)
                  "Successfully airdropped 25000 DUCK tokens" |}.

End Double.

(** * Properties *)

Section Laws.

Context {PublicKey Keypair Connection AccountInfo Instruction Blockhash : Type}.

Let M := @M PublicKey Keypair Connection Instruction Blockhash.

(** ** Sequencing *)

Lemma bind_ret_l {A B} (a : A) (k : A -> M B) : bind (ret a) k = k a.
Proof. unfold bind, ret. destruct (k a) as [t c]. reflexivity. Qed.

Lemma bind_ret_r {A} (m : M A) : bind m ret = m.
Proof.
  destruct m as [t [a | r | e]]; cbn; try reflexivity.
  rewrite app_nil_r. reflexivity.
Qed.

Lemma bind_assoc {A B C} (m : M A) (k : A -> M B) (h : B -> M C) :
  bind (bind m k) h = bind m (fun a => bind (k a) h).
Proof.
  destruct m as [t [a | r | e]]; cbn; try reflexivity.
  destruct (k a) as [t' [b | r | e]]; cbn; try reflexivity.
  destruct (h b) as [t'' c]. rewrite app_assoc. reflexivity.
Qed.

(** A [try] whose body does not throw is its body. *)
Lemma try_catch_no_throw {A} (m : M A) (h : thrown -> M A) :
  (forall e, snd m <> Throw e) -> try_catch m h = m.
Proof.
  destruct m as [t [a | r | e]]; cbn; intros H; try reflexivity.
  destruct (H e eq_refl).
Qed.

(** ** The phases *)

Implicit Types
  (sdk : @Sdk PublicKey Keypair Connection AccountInfo Instruction Blockhash).

(** Reading the credential gives the key pair that the credential stands
    for, or leaves the handler with the 500 response. *)
Lemma parse_sender_key_refines sdk credential :
  snd (parse_sender_key sdk credential)
  = match sender_keypair sdk credential with
    | Ok keys => Normal keys
    | Raise _ =>
        Return {| status := 500;
                  payload := ErrorBody "Invalid sender private key format" |}
    end.
Proof.
  unfold parse_sender_key, sender_keypair, try_catch, bind, call, respond,
    console_error, emit.
  destruct (Str.startsWith credential "[").
  - destruct (JSON_parse sdk credential) as [value | e]; cbn; [ | reflexivity ].
    destruct (Uint8Array_from sdk value) as [bytes | e]; cbn; [ | reflexivity ].
    destruct (Keypair_fromSecretKey sdk bytes); reflexivity.
  - destruct (bs58_decode sdk credential) as [bytes | e]; cbn; [ | reflexivity ].
    destruct (Keypair_fromSecretKey sdk bytes); reflexivity.
Qed.

(** The query of the recipient's account never throws. *)
Lemma recipient_account_info_total sdk connection account :
  snd (recipient_account_info sdk connection account)
  = Normal match getAccountInfo sdk connection account with
           | Ok info => info
           | Raise _ => None
           end.
Proof.
  unfold recipient_account_info, try_catch, bind, call, console_error, emit, ret.
  destruct (getAccountInfo sdk connection account); reflexivity.
Qed.

(** The transaction has the account creation first when the recipient has
    no account, and the transfer last. *)
Lemma assemble_transaction_instructions
    sdk keys source destination recipient mint amount info transaction :
  snd (assemble_transaction sdk keys source destination recipient mint amount info)
  = Normal transaction ->
  exists transfer,
    createTransferInstruction sdk source destination (publicKey sdk keys)
      (Number.mul amount Number.Math_pow_10_9) = Ok transfer
    /\ match info with
       | Some _ => instructions transaction = [transfer]
       | None =>
           exists create,
             createAssociatedTokenAccountInstruction sdk (publicKey sdk keys)
               destination recipient mint = Ok create
             /\ instructions transaction = [create; transfer]
       end.
Proof.
  unfold assemble_transaction, bind, call, emit, ret.
  destruct info as [account | ];
    [ | destruct (createAssociatedTokenAccountInstruction sdk (publicKey sdk keys)
                    destination recipient mint) as [create | e] ];
    try destruct (createTransferInstruction sdk source destination
                    (publicKey sdk keys) (Number.mul amount Number.Math_pow_10_9))
      as [transfer | e'];
    cbn; intros H; try discriminate H; injection H as <-.
  - exists transfer. split; reflexivity.
  - exists transfer. split; [ reflexivity | ]. exists create. split; reflexivity.
Qed.

End Laws.

(** ** The outer [catch] *)

Lemma top_level_catch_trace
    {PublicKey Keypair Connection Instruction Blockhash : Type} (e : thrown) :
  fst (@top_level_catch PublicKey Keypair Connection Instruction Blockhash e)
  = [ConsoleError "Airdrop error:" (Some e)].
Proof.
  destruct e as [message | is_null | shown]; cbn; try reflexivity.
  destruct (Str.includes message "already in use"); reflexivity.
Qed.

Lemma top_level_catch_JsError
    {PublicKey Keypair Connection Instruction Blockhash : Type} (message : string) :
  @top_level_catch PublicKey Keypair Connection Instruction Blockhash (JsError message)
  = ([ConsoleError "Airdrop error:" (Some (JsError message))],
     Return (classified_response message)).
Proof.
  unfold top_level_catch, classified_response. cbn.
  destruct (Str.includes message "already in use"); reflexivity.
Qed.

(** The outer [catch] has no answer to a thrown value without a message:
    reading [message.includes] throws in turn. *)
Lemma top_level_catch_no_message
    {PublicKey Keypair Connection Instruction Blockhash : Type} (shown : string) :
  @top_level_catch PublicKey Keypair Connection Instruction Blockhash (ThrownOther shown)
  = ([ConsoleError "Airdrop error:" (Some (ThrownOther shown))],
     Throw (TypeError_read false "includes")).
Proof. reflexivity. Qed.

(** ** Running the handler symbolically

    A run is decided by what each collaborator answers. [run_handler H]
    turns [H : handler sdk env req = (t, o)] into one case per sequence of
    answers, in the order of the calls, with [t] and [o] replaced by the
    trace and the outcome of the case. An answer that a hypothesis gives is
    taken from it. The outer [catch] is kept folded: a case that throws [e]
    comes with the equation of [top_level_catch e]. *)

Ltac stuck_on t :=
  lazymatch t with
  | (let (_, _) := ?s in _) => stuck_on s
  | match ?s with Normal _ => _ | Return _ => _ | Throw _ => _ end => stuck_on s
  | match ?s with Ok _ => _ | Raise _ => _ end => stuck_on s
  | match ?s with Some _ => _ | None => _ end => stuck_on s
  | (if ?s then _ else _) => stuck_on s
  | _ => t
  end.

Ltac reduce_run H := cbv beta iota zeta delta [app fst snd] in H.

Ltac run_step H :=
  lazymatch type of H with
  | ?lhs = (_, _) =>
      let s := stuck_on lhs in
      lazymatch s with
      | (_, _) => fail
      | @top_level_catch ?P ?K ?C ?I ?B ?e =>
          let Hcatch := fresh "Hcatch" in
          let Htrace := fresh "Htrace" in
          pose proof (@top_level_catch_trace P K C I B e) as Htrace;
          destruct s as [? [[] | ? | ?]] eqn:Hcatch;
          cbn [fst] in Htrace; subst; reduce_run H
      | _ =>
          first [ match goal with Hs : s = _ |- _ => rewrite Hs in H end
                | destruct s eqn:? ];
          reduce_run H
      end
  end.

Ltac unfold_run H :=
  unfold handler, finish, try_block, parse_sender_key, recipient_account_info,
    assemble_transaction, destructure_walletAddress, getenv, console_error,
    console_log, emit, call, respond, throw, ret, try_catch, bind in H;
  reduce_run H.

Ltac run_handler H :=
  unfold_run H; repeat run_step H;
  lazymatch type of H with
  | _ = (_, _) => injection H as <- <-
  end.

(** [start] opens a statement about [trace_of] and [outcome_of]. *)
Ltac start :=
  unfold trace_of, outcome_of in *;
  match goal with
  | |- context [handler ?sdk ?env ?req] =>
      let Hrun := fresh "Hrun" in
      destruct (handler sdk env req) as [? ?] eqn:Hrun;
      cbn [fst snd] in *; run_handler Hrun
  | H : context [handler ?sdk ?env ?req] |- _ =>
      let Hrun := fresh "Hrun" in
      destruct (handler sdk env req) as [? ?] eqn:Hrun;
      cbn [fst snd] in *; run_handler Hrun
  end.

(** An event of a trace is among those that [f] selects from it. *)
Lemma In_select {PublicKey Keypair Connection Instruction Blockhash A : Type}
    (f : @event PublicKey Keypair Connection Instruction Blockhash -> option A)
    t ev a :
  In ev t -> f ev = Some a -> In a (select f t).
Proof.
  intros Hin Hf. apply in_flat_map. exists ev. split; [ exact Hin | ].
  rewrite Hf. left. reflexivity.
Qed.

(** [select_in H f] turns [H : In ev t], for a trace [t] that is known,
    into the membership of what [f] reads in [ev] among what it reads in
    the events of [t]. *)
Ltac select_in H f :=
  let H' := fresh in
  pose proof (In_select f _ _ _ H eq_refl) as H';
  cbv [select flat_map app] in H'; clear H; rename H' into H.

(** The cases of [In e t] for a trace [t] that is known. *)
Ltac event_cases H :=
  cbn [In] in H;
  repeat (let H' := fresh in destruct H as [H' | H]; [try discriminate H' | ]);
  try contradiction.

(** Membership in a trace that is known. *)
Ltac in_trace := cbn [In]; solve [ repeat (first [ left; reflexivity | right ]) ].

(** The answer to a recorded call, from the equations of the case. *)
Ltac answer_in H :=
  cbn [raised confirmed] in H;
  repeat match type of H with
         | context [match ?r with Ok _ => _ | Raise _ => _ end] =>
             match goal with Heq : r = _ |- _ => rewrite Heq in H end
         end;
  cbv beta iota in H.

(** The outcome of a case that throws an [Error]. *)
Ltac caught :=
  match goal with
  | Hcatch : top_level_catch _ = _ |- _ =>
      unfold TypeError_destructure in Hcatch;
      rewrite top_level_catch_JsError in Hcatch;
      first [ discriminate Hcatch | injection Hcatch as <- ]
  end.

(** A request is a POST. *)
Ltac posted H :=
  match type of H with
  | req_method ?req = "POST" =>
      let Hm := fresh "Hmethod" in
      assert (Hm : negb (String.eqb (req_method req) "POST") = false)
        by (rewrite H; reflexivity)
  end.

(** A goal about one of the handler's own texts. *)
Ltac own_text Hown :=
  apply Hown; cbn [In handler_literals];
  solve [ repeat (first [ left; reflexivity | right ]) ].

(** A goal about the text of an exception, or about a signature, that a
    recorded call answered. *)
Ltac from_call Hraised :=
  let close ev Heq :=
    apply (Hraised ev); [ in_trace | cbn [raised]; rewrite Heq; reflexivity ] in
  lazymatch type of Hraised with
  | forall ev : ?T, _ =>
      match goal with
      | Heq : ?c = Raise ?x |- Str.includes _ ?secret = false =>
          change (Str.includes (thrown_text x) secret = false);
          lazymatch c with
          | PublicKey_new _ ?v => close (NewPublicKey v : T) Heq
          | JSON_parse _ ?t => close (JsonParse t : T) Heq
          | Uint8Array_from _ ?v => close (NewUint8Array v : T) Heq
          | bs58_decode _ ?t => close (Bs58Decode t : T) Heq
          | Keypair_fromSecretKey _ ?b => close (KeypairFromSecretKey b : T) Heq
          | Connection_new _ ?u ?m => close (NewConnection u m : T) Heq
          | getAssociatedTokenAddress _ ?m ?o =>
              close (GetAssociatedTokenAddress m o : T) Heq
          | getTokenAccountBalance _ ?k ?a => close (GetTokenAccountBalance k a : T) Heq
          | getAccountInfo _ ?k ?a => close (GetAccountInfo k a : T) Heq
          | createAssociatedTokenAccountInstruction _ ?p ?a ?o ?m =>
              close (CreateAssociatedTokenAccountInstruction p a o m : T) Heq
          | createTransferInstruction _ ?s ?d ?o ?n =>
              close (CreateTransferInstruction s d o n : T) Heq
          | getLatestBlockhash _ ?k => close (GetLatestBlockhash k : T) Heq
          | sendAndConfirmTransaction _ ?k ?t ?s ?m =>
              close (SendAndConfirmTransaction k t s m : T) Heq
          end
      end
  end.

Ltac from_submission Hconfirmed :=
  match goal with
  | Heq : sendAndConfirmTransaction _ ?c ?t ?s ?m = Ok ?x |- _ =>
      let H1 := fresh in
      let H2 := fresh in
      destruct (Hconfirmed (SendAndConfirmTransaction c t s m)
                  ltac:(in_trace) x
                  ltac:(cbn [confirmed]; rewrite Heq; reflexivity)) as [H1 H2];
      first [ exact H1 | exact H2 ]
  end.

Section Properties.

Context {PublicKey Keypair Connection AccountInfo Instruction Blockhash : Type}.

Implicit Types
  (sdk : @Sdk PublicKey Keypair Connection AccountInfo Instruction Blockhash)
  (env : Env) (req : Request) (e : thrown) (message : string)
  (ev : @event PublicKey Keypair Connection Instruction Blockhash).

(** ** The method *)

Lemma other_methods_are_refused sdk env req :
  req_method req <> "POST" -> handler sdk env req = ([], method_not_allowed).
Proof.
  intros Hmethod. unfold handler.
  destruct (String.eqb_spec (req_method req) "POST") as [Heq | _];
    [ contradiction | reflexivity ].
Qed.

(** ** The balance guard *)

(** C3. When the balance that the run queried is below the configured
    amount, the answer is 400 [insufficient_token_balance] and nothing is
    submitted; and a run that submits has queried a balance that is not
    below the configured amount. *)
Theorem insufficient_balance_is_refused sdk env req :
  (forall connection account balance,
     In (GetTokenAccountBalance connection account) (trace_of sdk env req) ->
     getTokenAccountBalance sdk connection account = Ok balance ->
     Number.lt (ToNumber (uiAmount balance)) (tokenAmount env) = true ->
     outcome_of sdk env req = insufficient_balance
     /\ existsb submits (trace_of sdk env req) = false)
  /\
  (existsb submits (trace_of sdk env req) = true ->
   exists connection account balance,
     In (GetTokenAccountBalance connection account) (trace_of sdk env req)
     /\ getTokenAccountBalance sdk connection account = Ok balance
     /\ Number.lt (ToNumber (uiAmount balance)) (tokenAmount env) = false).
Proof.
  start.
  all: split;
    [ intros connection account balance Hin Hanswer Hbelow;
      event_cases Hin;
      try match goal with
          | Heq : GetTokenAccountBalance _ _ = GetTokenAccountBalance _ _ |- _ =>
              injection Heq as -> ->
          end;
      try (split; reflexivity);
      unfold tokenAmount in *; congruence
    | cbn [existsb submits orb]; intros Hsubmits;
      first
        [ discriminate Hsubmits
        | do 3 eexists; split; [ | split; [eassumption | assumption] ];
          cbn [In]; tauto ] ].
Qed.

(** ** The transfer amount *)

Lemma transfer_amount_formula sdk env req source destination owner amount :
  In (CreateTransferInstruction source destination owner amount)
     (trace_of sdk env req) ->
  amount = Number.mul (tokenAmount env) Number.Math_pow_10_9.
Proof.
  start; intros Hin; event_cases Hin.
  all: match goal with
       | Heq : CreateTransferInstruction _ _ _ _ = _ |- _ =>
           injection Heq as <- <- <- <-
       end; reflexivity.
Qed.

(** C1. The amount given to the transfer instruction is the configured
    amount times ten to the ninth, whatever the collaborators answer: it is
    the same for every mint, whatever its decimals. *)
Theorem transfer_amount_is_amount_times_1e9
    sdk env req source destination owner amount :
  In (CreateTransferInstruction source destination owner amount)
     (trace_of sdk env req) ->
  amount = Number.mul (Str.parseInt (EnvVar.or_else (TOKEN_AMOUNT env) "25000"))
                      (Number.of_Z (10 ^ 9))
  /\ forall sdk' req' source' destination' owner' amount',
       In (CreateTransferInstruction source' destination' owner' amount')
          (trace_of sdk' env req') ->
       amount' = amount.
Proof.
  intros Hin. apply transfer_amount_formula in Hin. split.
  - exact Hin.
  - intros sdk' req' source' destination' owner' amount' Hin'.
    apply transfer_amount_formula in Hin'. congruence.
Qed.

(** ** Validation comes before the configuration *)

(** C2, amended. With one of the three required values unset or empty, a
    POST with a valid wallet address is answered 500 [Server configuration
    error]; but the body is validated first: a missing or empty address is
    answered 400 [Wallet address is required], an address that does not
    parse 400 [Invalid wallet address format], and a request without a body
    500 with the message of the TypeError. *)
Theorem configuration_error_follows_validation sdk env req :
  req_method req = "POST" ->
  EnvVar.truthy (SENDER_PRIVATE_KEY env)
  && EnvVar.truthy (TOKEN_MINT_ADDRESS env)
  && EnvVar.truthy (RPC_URL env) = false ->
  outcome_of sdk env req =
    match req_body req with
    | None => classified (thrown_text (TypeError_destructure false))
    | Some b =>
        if Json.is_null b
        then classified (thrown_text (TypeError_destructure true))
        else
          match Json.get b "walletAddress" with
          | None => address_required
          | Some walletAddress =>
              if Json.truthy walletAddress
              then match PublicKey_new sdk walletAddress with
                   | Ok _ => configuration_error
                   | Raise _ => invalid_address
                   end
              else address_required
          end
    end.
Proof.
  intros Hpost Habsent. posted Hpost.
  assert (Hguard : negb (EnvVar.truthy (SENDER_PRIVATE_KEY env))
                   || negb (EnvVar.truthy (TOKEN_MINT_ADDRESS env))
                   || negb (EnvVar.truthy (RPC_URL env)) = true).
  { destruct (EnvVar.truthy (SENDER_PRIVATE_KEY env)),
             (EnvVar.truthy (TOKEN_MINT_ADDRESS env)),
             (EnvVar.truthy (RPC_URL env)); (reflexivity || discriminate). }
  start.
  all: repeat match goal with
              | Heq : ?x = _ |- context [match ?x with _ => _ end] => rewrite Heq
              | Heq : negb ?x = _ |- context [if ?x then _ else _] =>
                  apply (f_equal negb) in Heq; rewrite negb_involutive in Heq;
                  cbn [negb] in Heq; rewrite Heq
              end.
  all: try reflexivity.
  all: caught; reflexivity.
Qed.

(** ** Exceptions *)

(** C4, amended. An exception with a message that a collaborator throws
    after the sender's key pair is made, in any call but the query of the
    recipient's account, reaches the outer [catch]: the answer is 400
    [already_claimed_or_has_balance] when the message contains [already in
    use], else 500 with the message, or with the fallback text when the
    message is empty. *)
Theorem propagated_exception_is_classified sdk env req ev message :
  In ev (after_keypair (trace_of sdk env req)) ->
  is_account_query ev = false ->
  raised sdk ev = Some (JsError message) ->
  outcome_of sdk env req = classified message.
Proof.
  intros Hin Hquery Hraised. start.
  all: cbn [after_keypair] in Hin; event_cases Hin; subst ev;
       try discriminate Hquery; answer_in Hraised; try discriminate Hraised;
       injection Hraised as ->; caught; reflexivity.
Qed.

(** ** The address of the recipient *)

Lemma get_of_null (b walletAddress : json) :
  Json.get b "walletAddress" = Some walletAddress -> Json.is_null b = false.
Proof. destruct b; cbn; congruence. Qed.

(** C6, amended. A POST whose [walletAddress] is not empty and does not
    parse as an address is answered 400 [Invalid wallet address format],
    and the attempt to parse it is all that the run does. *)
Theorem unparsable_address_is_refused sdk env req b walletAddress e :
  req_method req = "POST" ->
  req_body req = Some b ->
  Json.get b "walletAddress" = Some walletAddress ->
  Json.truthy walletAddress = true ->
  PublicKey_new sdk walletAddress = Raise e ->
  handler sdk env req = ([NewPublicKey walletAddress], invalid_address).
Proof.
  intros Hpost Hbody Hfield Htruthy Hparse. posted Hpost.
  pose proof (get_of_null _ _ Hfield) as Hnull.
  assert (Hfalsy : negb (Json.truthy walletAddress) = false)
    by (rewrite Htruthy; reflexivity).
  destruct (handler sdk env req) as [t o] eqn:Hrun.
  run_handler Hrun. reflexivity.
Qed.

(** ** The credential of the sender *)

(** C7. For a request that passes validation under a complete
    configuration: a credential that begins with an opening bracket goes to
    [JSON.parse] and never to the base58 decoder, any other to the base58
    decoder and never to [JSON.parse]; and when reading it fails, at any
    step down to the making of the key pair, the failure is logged and the
    answer is 500 [Invalid sender private key format]; otherwise the run
    goes on to open the connection. *)
Theorem sender_key_encodings sdk env req b walletAddress recipient :
  let credential := EnvVar.text (SENDER_PRIVATE_KEY env) in
  req_method req = "POST" ->
  req_body req = Some b ->
  Json.get b "walletAddress" = Some walletAddress ->
  Json.truthy walletAddress = true ->
  PublicKey_new sdk walletAddress = Ok recipient ->
  EnvVar.truthy (SENDER_PRIVATE_KEY env)
  && EnvVar.truthy (TOKEN_MINT_ADDRESS env)
  && EnvVar.truthy (RPC_URL env) = true ->
  (if Str.startsWith credential "["
   then In (JsonParse credential) (trace_of sdk env req)
        /\ existsb is_base58_decode (trace_of sdk env req) = false
   else In (Bs58Decode credential) (trace_of sdk env req)
        /\ existsb is_json_parse (trace_of sdk env req) = false)
  /\ match sender_keypair sdk credential with
     | Raise e =>
         outcome_of sdk env req = invalid_sender_key
         /\ In (ConsoleError "Error parsing private key:" (Some e))
               (trace_of sdk env req)
         /\ existsb submits (trace_of sdk env req) = false
     | Ok _ =>
         In (NewConnection (EnvVar.text (RPC_URL env)) "confirmed")
            (trace_of sdk env req)
     end.
Proof.
  intros credential Hpost Hbody Hfield Htruthy Hparse Hpresent.
  subst credential. posted Hpost.
  pose proof (get_of_null _ _ Hfield) as Hnull.
  assert (Hfalsy : negb (Json.truthy walletAddress) = false)
    by (rewrite Htruthy; reflexivity).
  assert (Hguard : negb (EnvVar.truthy (SENDER_PRIVATE_KEY env))
                   || negb (EnvVar.truthy (TOKEN_MINT_ADDRESS env))
                   || negb (EnvVar.truthy (RPC_URL env)) = false).
  { destruct (EnvVar.truthy (SENDER_PRIVATE_KEY env)),
             (EnvVar.truthy (TOKEN_MINT_ADDRESS env)),
             (EnvVar.truthy (RPC_URL env)); (reflexivity || discriminate). }
  unfold sender_keypair.
  destruct (Str.startsWith (EnvVar.text (SENDER_PRIVATE_KEY env)) "[") eqn:Hbracket;
    [ destruct (JSON_parse sdk (EnvVar.text (SENDER_PRIVATE_KEY env)))
        as [value | e] eqn:Hjson;
      [ destruct (Uint8Array_from sdk value) as [bytes | e] eqn:Hbytes | ]
    | destruct (bs58_decode sdk (EnvVar.text (SENDER_PRIVATE_KEY env)))
        as [bytes | e] eqn:Hbytes ].
  all: try (destruct (Keypair_fromSecretKey sdk bytes) as [pair | e] eqn:Hpair).
  all: start.
  all: split; [ split; [ in_trace | reflexivity ] | ].
  all: first [ in_trace | split; [ reflexivity | split; [ in_trace | reflexivity ] ] ].
Qed.

(** ** The instructions of the transaction *)

Lemma default_amount (value : option string) :
  EnvVar.truthy value = false -> parse_token_amount value = Number.of_Z 25000.
Proof.
  destruct value as [[ | c text] | ]; cbn; intros H;
    solve [ discriminate H | vm_compute; reflexivity ].
Qed.

(** The outer [catch] answers with 400 or 500, and never with the body of
    the insufficient balance. *)
Lemma top_level_catch_response
    (e : thrown) (t : list (@event PublicKey Keypair Connection Instruction Blockhash))
    (r : response) :
  top_level_catch e = (t, Return r) ->
  exists message, e = JsError message /\ r = classified_response message.
Proof.
  destruct e as [message | is_null | shown]; cbn; try discriminate.
  intros H. exists message. split; [reflexivity | ].
  unfold classified_response.
  destruct (Str.includes message "already in use"); cbn in H; congruence.
Qed.

Lemma classified_response_status message :
  status (classified_response message) = 400
  /\ payload (classified_response message) = ErrorBody "already_claimed_or_has_balance"
  \/ status (classified_response message) = 500.
Proof.
  unfold classified_response.
  destruct (Str.includes message "already in use"); cbn; auto.
Qed.

(** C5. In a run that builds the transfer instruction, the instructions
    added to the transaction are the account creation, paid by the sender,
    and then the transfer when the query of the recipient's account finds
    none or fails, and the transfer alone when it finds one; they are the
    instructions of the transaction that is submitted; and a 200 response
    reports the amount 25000 when [TOKEN_AMOUNT] is unset. *)
Theorem assembled_instructions
    sdk env req connection account source owner amount transfer :
  In (GetAccountInfo connection account) (trace_of sdk env req) ->
  In (CreateTransferInstruction source account owner amount) (trace_of sdk env req) ->
  createTransferInstruction sdk source account owner amount = Ok transfer ->
  match getAccountInfo sdk connection account with
  | Ok (Some _) => added (trace_of sdk env req) = [transfer]
  | _ =>
      exists recipient mint create,
        createAssociatedTokenAccountInstruction sdk owner account recipient mint
        = Ok create
        /\ In (CreateAssociatedTokenAccountInstruction owner account recipient mint)
              (trace_of sdk env req)
        /\ added (trace_of sdk env req) = [create; transfer]
  end
  /\ (forall bytes pair,
        In (KeypairFromSecretKey bytes) (trace_of sdk env req) ->
        Keypair_fromSecretKey sdk bytes = Ok pair ->
        owner = publicKey sdk pair)
  /\ (forall connection' transaction signers commitment,
        In (SendAndConfirmTransaction connection' transaction signers commitment)
           (trace_of sdk env req) ->
        instructions transaction = added (trace_of sdk env req)
        /\ feePayer transaction = Some owner)
  /\ (EnvVar.truthy (TOKEN_AMOUNT env) = false ->
      forall r,
        outcome_of sdk env req = Responded r ->
        status r = 200 ->
        exists signature,
          payload r = SuccessBody signature (Number.of_Z 25000)
                        (success_message sdk (Number.of_Z 25000))).
Proof.
  intros Hquery Hcall Hbuilt. start.
  all: select_in Hcall
         (fun ev : @event PublicKey Keypair Connection Instruction Blockhash =>
            match ev with
            | CreateTransferInstruction s d o a => Some (s, d, o, a)
            | _ => None
            end);
       select_in Hquery
         (fun ev : @event PublicKey Keypair Connection Instruction Blockhash =>
            match ev with
            | GetAccountInfo c a => Some (c, a)
            | _ => None
            end).
  all: event_cases Hquery; event_cases Hcall.
  all: repeat match goal with
              | Heq : (_, _) = (_, _) |- _ => injection Heq; clear Heq; intros; subst
              end.
  all: match type of Hbuilt with
       | ?c = _ =>
           match goal with
           | H1 : c = Raise _ |- _ => rewrite H1 in Hbuilt; discriminate Hbuilt
           | H1 : c = Ok _ |- _ => rewrite H1 in Hbuilt; injection Hbuilt as <-
           end
       end.
  all: match goal with
       | Heq : getAccountInfo _ _ _ = _ |- _ => rewrite Heq
       end.
  all: split;
    [ first [ reflexivity
            | do 3 eexists; split; [ eassumption | split; [ in_trace | reflexivity ] ] ]
    | split;
      [ intros bytes pair Hin Hpair;
        select_in Hin
          (fun ev : @event PublicKey Keypair Connection Instruction Blockhash =>
             match ev with KeypairFromSecretKey b => Some b | _ => None end);
        event_cases Hin; subst bytes;
        match goal with
        | Heq : Keypair_fromSecretKey _ _ = _ |- _ =>
            rewrite Heq in Hpair; injection Hpair as <-; reflexivity
        end
      | split;
        [ intros connection' transaction signers commitment Hin;
          select_in Hin
            (fun ev : @event PublicKey Keypair Connection Instruction Blockhash =>
               match ev with
               | SendAndConfirmTransaction _ t _ _ => Some t
               | _ => None
               end);
          event_cases Hin; subst transaction; split; reflexivity
        | intros Hunset r' Hout Hstatus;
          try rewrite (default_amount _ Hunset) in Hout ] ] ].
  all: try discriminate Hout.
  all: injection Hout as <-.
  all: try (cbn in Hstatus; discriminate Hstatus).
  all: try (eexists; reflexivity).
  all: match goal with
       | Hcatch : top_level_catch _ = _ |- _ =>
           apply top_level_catch_response in Hcatch;
           destruct Hcatch as (message & _ & ->);
           destruct (classified_response_status message) as [[Hs _] | Hs];
           rewrite Hs in Hstatus; discriminate Hstatus
       end.
Qed.

(** ** An amount that is not a number *)


Lemma classified_is_not_insufficient message :
  classified message <> insufficient_balance.
Proof.
  unfold classified, classified_response, insufficient_balance, refusal.
  destruct (Str.includes message "already in use"); discriminate.
Qed.


(** ** What a run shows *)

(** C8, amended. Every string that a run shows, on the console or in the
    response, is one of the handler's own texts, the text of an exception
    that a collaborator threw in the run, or the signature that the
    submission returned: a secret that none of these contains, such as the
    credential of the sender, is not shown. *)
Theorem secret_is_shown_only_by_collaborators sdk env req secret :
  (forall s,
     In s (success_message sdk (tokenAmount env) :: handler_literals) ->
     Str.includes s secret = false) ->
  (forall ev,
     In ev (trace_of sdk env req) ->
     forall e, raised sdk ev = Some e -> Str.includes (thrown_text e) secret = false) ->
  (forall ev,
     In ev (trace_of sdk env req) ->
     forall signature,
       confirmed sdk ev = Some signature ->
       Str.includes signature secret = false
       /\ Str.includes ("Airdrop successful: " ++ signature) secret = false) ->
  forall s,
    In s (visible_strings (handler sdk env req)) -> Str.includes s secret = false.
Proof.
  intros Hown Hraised Hconfirmed s Hs. unfold tokenAmount in Hown. start.
  all: try match goal with
           | Hcatch : top_level_catch _ = (_, Return _) |- _ =>
               apply top_level_catch_response in Hcatch;
               destruct Hcatch as (message & Hmessage & ->);
               unfold classified_response in Hs;
               destruct (Str.includes message "already in use");
               destruct (Str.truthy message);
               first [ unfold TypeError_destructure in Hmessage;
                       injection Hmessage as <-
                     | subst ]
           end.
  all: cbn in Hs; event_cases Hs; subst s.
  all: lazymatch goal with
       | |- Str.includes ?text _ = false =>
           tryif is_var text
           then first [ from_call Hraised | from_submission Hconfirmed ]
           else first [ own_text Hown | from_call Hraised | from_submission Hconfirmed ]
       end.
Qed.

End Properties.

(** * Further properties of the handler *)

(** A response of the outer [catch] has status 400 or 500: [Hstatus], which
    gives it another status, is absurd. *)
Ltac caught_status Hstatus :=
  match goal with
  | Hcatch : top_level_catch _ = _ |- _ =>
      let message := fresh "message" in
      let Hs := fresh "Hs" in
      apply top_level_catch_response in Hcatch;
      destruct Hcatch as (message & _ & ->);
      destruct (classified_response_status message) as [[Hs _] | Hs];
      rewrite Hs in Hstatus; discriminate Hstatus
  end.

(** What the outer [catch] throws: the TypeError of reading a property of
    a thrown value that has no [message]. *)
Lemma top_level_catch_rejection
    {PublicKey Keypair Connection Instruction Blockhash : Type}
    (e : thrown) (t : list (@event PublicKey Keypair Connection Instruction Blockhash))
    (e' : thrown) :
  top_level_catch e = (t, Throw e') ->
  (forall message, e <> JsError message)
  /\ exists is_null property, e' = TypeError_read is_null property.
Proof.
  intros Hcatch. split.
  - intros message ->. rewrite top_level_catch_JsError in Hcatch.
    discriminate Hcatch.
  - destruct e as [message | is_null | shown].
    + rewrite top_level_catch_JsError in Hcatch. discriminate Hcatch.
    + injection Hcatch as _ <-. exists is_null, "message". reflexivity.
    + injection Hcatch as _ <-. exists false, "includes". reflexivity.
Qed.

(** The equations of a case give the value of [sender_keypair]. *)
Ltac keypair_made :=
  unfold sender_keypair;
  repeat match goal with
         | Heq : ?c = _ |- context [?c] => rewrite Heq
         end;
  reflexivity.

(** The event of the call whose exception the outer [catch] caught. *)
Ltac failing_call T k :=
  match goal with
  | Hcatch : top_level_catch ?x = _, Heq : ?c = Raise ?x |- _ =>
      lazymatch c with
      | PublicKey_new _ ?v => k (NewPublicKey v : T) Heq
      | Connection_new _ ?u ?m => k (NewConnection u m : T) Heq
      | getAssociatedTokenAddress _ ?m ?o => k (GetAssociatedTokenAddress m o : T) Heq
      | getTokenAccountBalance _ ?c ?a => k (GetTokenAccountBalance c a : T) Heq
      | createAssociatedTokenAccountInstruction _ ?p ?a ?o ?m =>
          k (CreateAssociatedTokenAccountInstruction p a o m : T) Heq
      | createTransferInstruction _ ?s ?d ?o ?n =>
          k (CreateTransferInstruction s d o n : T) Heq
      | getLatestBlockhash _ ?c => k (GetLatestBlockhash c : T) Heq
      | sendAndConfirmTransaction _ ?c ?t ?s ?m =>
          k (SendAndConfirmTransaction c t s m : T) Heq
      end
  end.

(** ** [includes] *)

Lemma prefix_app (p s : string) :
  String.prefix p s = true <-> exists rest, s = p ++ rest.
Proof.
  revert s. induction p as [ | c p IH]; intros s.
  - split; [ intros _; exists s; reflexivity | ].
    intros _. destruct s; reflexivity.
  - destruct s as [ | c' s]; cbn.
    + split; [ discriminate | intros [rest Heq]; discriminate Heq ].
    + destruct (ascii_dec c c') as [<- | Hneq].
      * rewrite IH. split; intros [rest Heq]; exists rest; congruence.
      * split; [ discriminate | intros [rest Heq]; congruence ].
Qed.

Lemma includes_app (s sub : string) :
  Str.includes s sub = true <-> exists before after, s = before ++ sub ++ after.
Proof.
  induction s as [ | c s IH].
  - cbn [Str.includes]. rewrite orb_false_r, prefix_app. split.
    + intros [rest Heq]. exists "", rest. exact Heq.
    + intros (before & after & Heq). destruct before as [ | c before].
      * exists after. exact Heq.
      * discriminate Heq.
  - cbn [Str.includes]. rewrite orb_true_iff, prefix_app, IH. split.
    + intros [[rest Heq] | (before & after & Heq)].
      * exists "", rest. exact Heq.
      * exists (String c before), after. cbn. congruence.
    + intros (before & after & Heq). destruct before as [ | c' before].
      * left. exists after. exact Heq.
      * right. exists before, after. cbn in Heq. congruence.
Qed.

(** ** [parseInt] on a decimal text *)

Lemma decimal_digit_cases (c : ascii) :
  is_decimal_digit c = true ->
  Str.is_white_space c = false
  /\ c <> "-"%char /\ c <> "+"%char /\ c <> "x"%char /\ c <> "X"%char
  /\ exists d, Str.digit_value c = Some d /\ (d <? 10) = true.
Proof.
  destruct c as [[] [] [] [] [] [] [] []]; intros Hdigit;
    try discriminate Hdigit;
    (repeat split; try discriminate; eexists; split; reflexivity).
Qed.

Lemma read_digits_stops (rest : string) (acc : option Z) :
  ends_decimal rest = true -> Str.read_digits 10 rest acc = acc.
Proof.
  destruct rest as [ | c rest]; [ reflexivity | ].
  unfold ends_decimal, is_decimal_digit. cbn [Str.read_digits].
  destruct (Str.digit_value c) as [d | ]; [ | reflexivity ].
  destruct (d <? 10); [ discriminate | reflexivity ].
Qed.

Lemma read_digits_app (digits rest : string) (acc : option Z) :
  all_decimal digits = true ->
  ends_decimal rest = true ->
  Str.read_digits 10 (digits ++ rest) acc = Str.read_digits 10 digits acc.
Proof.
  revert acc. induction digits as [ | c digits IH]; intros acc Hdigits Hrest.
  - cbn. apply read_digits_stops. exact Hrest.
  - cbn in Hdigits. apply andb_true_iff in Hdigits as [Hc Hdigits].
    destruct (decimal_digit_cases c Hc) as (_ & _ & _ & _ & _ & d & Hd & Hlt).
    cbn [append Str.read_digits]. rewrite Hd, Hlt.
    apply IH; assumption.
Qed.

Section Further.

Context {PublicKey Keypair Connection AccountInfo Instruction Blockhash : Type}.

Implicit Types
  (sdk : @Sdk PublicKey Keypair Connection AccountInfo Instruction Blockhash)
  (env : Env) (req : Request) (e : thrown) (message : string)
  (ev : @event PublicKey Keypair Connection Instruction Blockhash).

(** ** The method *)

(** X1. A request with a method other than POST is answered 405 [Method not
    allowed] and nothing is logged, read or called; and no POST is answered
    405. *)
Theorem method_gate sdk env req :
  (req_method req <> "POST" -> handler sdk env req = ([], method_not_allowed))
  /\ (forall r,
        outcome_of sdk env req = Responded r -> status r = 405 ->
        req_method req <> "POST").
Proof.
  split; [ apply other_methods_are_refused | ].
  start; intros r' Hout Hstatus.
  all: try discriminate Hout.
  all: injection Hout as <-.
  all: try (cbn in Hstatus; discriminate Hstatus).
  all: try caught_status Hstatus.
  intros Hpost. rewrite Hpost in *. discriminate.
Qed.

(** ** The body *)

(** X2. A POST whose body has no [walletAddress], or a falsy one (empty
    string, [null], [false], zero), is answered 400 [Wallet address is
    required], and nothing is logged, read or called. *)
Theorem absent_address_is_required sdk env req b :
  req_method req = "POST" ->
  req_body req = Some b ->
  Json.is_null b = false ->
  address_is_absent b = true ->
  handler sdk env req = ([], address_required).
Proof.
  intros Hpost Hbody Hnull Habsent. posted Hpost.
  unfold address_is_absent in Habsent.
  destruct (Json.get b "walletAddress") as [walletAddress | ] eqn:Hfield.
  - destruct (handler sdk env req) as [t o] eqn:Hrun.
    run_handler Hrun. reflexivity.
  - destruct (handler sdk env req) as [t o] eqn:Hrun.
    run_handler Hrun. reflexivity.
Qed.

(** X3. A POST without a body ([undefined] or [null]) is not a validation
    error: destructuring throws, the TypeError is logged and it is
    answered 500 with the message of the TypeError. *)
Theorem missing_body_is_an_internal_error sdk env req (is_null : bool) :
  req_method req = "POST" ->
  req_body req = (if is_null then Some JNull else None) ->
  handler sdk env req
  = ([ConsoleError "Airdrop error:" (Some (TypeError_destructure is_null))],
     refusal 500 (thrown_text (TypeError_destructure is_null))).
Proof.
  intros Hpost Hbody. posted Hpost.
  destruct (handler sdk env req) as [t o] eqn:Hrun.
  destruct is_null.
  - assert (Hnull : Json.is_null JNull = true) by reflexivity.
    run_handler Hrun; caught; reflexivity.
  - run_handler Hrun; caught; reflexivity.
Qed.

(** ** The responses *)

(** X4. A response has status 200, 400, 405 or 500. With 200 its body is
    the success body, with the configured amount and the message built
    from it; with the others its body is an error. *)
Theorem response_statuses sdk env req r :
  outcome_of sdk env req = Responded r ->
  (status r = 200
   /\ exists signature,
        payload r = SuccessBody signature (tokenAmount env)
                      (success_message sdk (tokenAmount env)))
  \/ ((status r = 400 \/ status r = 405 \/ status r = 500)
      /\ exists error, payload r = ErrorBody error).
Proof.
  start; intros Hout.
  all: try discriminate Hout.
  all: injection Hout as <-.
  all: try match goal with
           | Hcatch : top_level_catch _ = _ |- _ =>
               apply top_level_catch_response in Hcatch;
               destruct Hcatch as (message & _ & ->);
               unfold classified_response;
               destruct (Str.includes message "already in use")
           end.
  all: first
         [ left; split; [ reflexivity | eexists; reflexivity ]
         | right; split;
           [ cbn [status]; first [ left; reflexivity
                                 | right; left; reflexivity
                                 | right; right; reflexivity ]
           | eexists; reflexivity ] ].
Qed.

(** ** No call is repeated *)

(** X5. In one run the balance, the recipient's account and the latest
    blockhash are each queried at most once, and at most one transaction
    is submitted: nothing is retried. *)
Theorem no_request_is_repeated sdk env req :
  (count_events is_balance_query (trace_of sdk env req) <= 1)%nat
  /\ (count_events is_account_query (trace_of sdk env req) <= 1)%nat
  /\ (count_events is_blockhash_query (trace_of sdk env req) <= 1)%nat
  /\ (count_events submits (trace_of sdk env req) <= 1)%nat.
Proof.
  start.
  all: cbv [count_events filter is_balance_query is_account_query
              is_blockhash_query submits List.length].
  all: repeat split; repeat constructor.
Qed.


(** ** The submission *)

(** X6. A submission that is confirmed is answered 200 with its signature,
    the configured amount and the message built from it, and the signature
    is logged; and every 200 response carries the signature with which a
    submission of the run was confirmed. *)
Theorem success_reports_the_confirmed_signature sdk env req :
  (forall connection transaction signers commitment signature,
     In (SendAndConfirmTransaction connection transaction signers commitment)
        (trace_of sdk env req) ->
     sendAndConfirmTransaction sdk connection transaction signers commitment
     = Ok signature ->
     outcome_of sdk env req
     = Responded {| status := 200;
                    payload := SuccessBody signature (tokenAmount env)
                                 (success_message sdk (tokenAmount env)) |}
     /\ In (ConsoleLog ("Airdrop successful: " ++ signature)) (trace_of sdk env req))
  /\ (forall r,
        outcome_of sdk env req = Responded r ->
        status r = 200 ->
        exists ev signature,
          In ev (trace_of sdk env req)
          /\ confirmed sdk ev = Some signature
          /\ payload r = SuccessBody signature (tokenAmount env)
                           (success_message sdk (tokenAmount env))).
Proof.
  start.
  all: split;
    [ intros connection transaction signers commitment signature Hin Hanswer;
      select_in Hin
        (fun ev : @event PublicKey Keypair Connection Instruction Blockhash =>
           match ev with
           | SendAndConfirmTransaction c t s m => Some (c, t, s, m)
           | _ => None
           end);
      event_cases Hin;
      match goal with
      | Heq : (_, _, _, _) = (_, _, _, _) |- _ => injection Heq as <- <- <- <-
      end;
      match goal with
      | Heq : ?c = _ |- _ =>
          rewrite Heq in Hanswer;
          first [ discriminate Hanswer | injection Hanswer as <- ]
      end;
      (split; [ reflexivity | in_trace ])
    | intros r' Hout Hstatus;
      first
        [ discriminate Hout
        | injection Hout as <-;
          first
            [ discriminate Hstatus
            | caught_status Hstatus
            | match goal with
              | Heq : sendAndConfirmTransaction _ ?c ?t ?s ?m = Ok ?x |- _ =>
                  exists (SendAndConfirmTransaction c t s m), x;
                  (split; [ in_trace | split; [ | reflexivity ] ]);
                  cbn [confirmed]; rewrite Heq; reflexivity
              end ] ] ].
Qed.

(** X7. A transaction is submitted on the connection opened to [RPC_URL],
    with the commitment [confirmed], signed by the key pair of the
    configured credential alone, whose public key pays the fee, and with
    the blockhash that the node gave on that connection. *)
Theorem submission_is_the_senders sdk env req connection transaction signers commitment :
  In (SendAndConfirmTransaction connection transaction signers commitment)
     (trace_of sdk env req) ->
  commitment = "confirmed"
  /\ Connection_new sdk (EnvVar.text (RPC_URL env)) "confirmed" = Ok connection
  /\ (exists pair,
        sender_keypair sdk (EnvVar.text (SENDER_PRIVATE_KEY env)) = Ok pair
        /\ signers = [pair]
        /\ feePayer transaction = Some (publicKey sdk pair))
  /\ (exists blockhash,
        In (GetLatestBlockhash connection) (trace_of sdk env req)
        /\ getLatestBlockhash sdk connection = Ok blockhash
        /\ recentBlockhash transaction = Some blockhash).
Proof.
  start; intros Hin.
  all: select_in Hin
         (fun ev : @event PublicKey Keypair Connection Instruction Blockhash =>
            match ev with
            | SendAndConfirmTransaction c t s m => Some (c, t, s, m)
            | _ => None
            end).
  all: event_cases Hin.
  all: match goal with
       | Heq : (_, _, _, _) = (_, _, _, _) |- _ => injection Heq as <- <- <- <-
       end.
  all: split; [ reflexivity | ].
  all: split; [ first [ reflexivity | assumption ] | ].
  all: split;
    [ eexists; split; [ keypair_made | split; reflexivity ]
    | eexists; split; [ in_trace | split; [ first [ reflexivity | eassumption ] | reflexivity ] ] ].
Qed.

(** X8. The transfer goes from the associated token account of the sender
    to the associated token account of the recipient, the address in the
    body, both for the configured mint, with the sender as owner; the
    balance checked is that of the source, and the account looked up is the
    destination. *)
Theorem transfer_is_between_the_associated_accounts
    sdk env req source destination owner amount :
  In (CreateTransferInstruction source destination owner amount)
     (trace_of sdk env req) ->
  exists b walletAddress recipient mint pair connection,
    req_body req = Some b
    /\ Json.get b "walletAddress" = Some walletAddress
    /\ PublicKey_new sdk walletAddress = Ok recipient
    /\ PublicKey_new sdk (JStr (EnvVar.text (TOKEN_MINT_ADDRESS env))) = Ok mint
    /\ sender_keypair sdk (EnvVar.text (SENDER_PRIVATE_KEY env)) = Ok pair
    /\ getAssociatedTokenAddress sdk mint (publicKey sdk pair) = Ok source
    /\ getAssociatedTokenAddress sdk mint recipient = Ok destination
    /\ owner = publicKey sdk pair
    /\ In (GetTokenAccountBalance connection source) (trace_of sdk env req)
    /\ In (GetAccountInfo connection destination) (trace_of sdk env req).
Proof.
  start; intros Hin.
  all: select_in Hin
         (fun ev : @event PublicKey Keypair Connection Instruction Blockhash =>
            match ev with
            | CreateTransferInstruction s d o n => Some (s, d, o, n)
            | _ => None
            end).
  all: event_cases Hin.
  all: match goal with
       | Heq : (_, _, _, _) = (_, _, _, _) |- _ => injection Heq as <- <- <- <-
       end.
  all: do 6 eexists.
  all: split; [ first [ reflexivity | eassumption ] | ].
  all: split; [ first [ reflexivity | eassumption ] | ].
  all: split; [ first [ reflexivity | eassumption ] | ].
  all: split; [ first [ reflexivity | eassumption ] | ].
  all: split; [ keypair_made | ].
  all: split; [ first [ reflexivity | eassumption ] | ].
  all: split; [ first [ reflexivity | eassumption ] | ].
  all: split; [ reflexivity | ].
  all: split; in_trace.
Qed.


(** X9. When the query of the recipient's account fails, the failure is
    logged and the run goes on as if the node had found no account: the
    outcome is the same, and so is the trace but for the logged line. *)
Theorem failed_account_query_counts_as_no_account sdk env req connection account e :
  In (GetAccountInfo connection account) (trace_of sdk env req) ->
  getAccountInfo sdk connection account = Raise e ->
  In (ConsoleError "Error checking recipient token account:" (Some e))
     (trace_of sdk env req)
  /\ outcome_of sdk env req = outcome_of (without_account sdk) env req
  /\ filter (fun ev => negb (logs_account_failure ev)) (trace_of sdk env req)
     = trace_of (without_account sdk) env req.
Proof.
  unfold trace_of, outcome_of. intros Hin Hanswer.
  destruct (handler sdk env req) as [t o] eqn:Hrun.
  destruct (handler (without_account sdk) env req) as [t' o'] eqn:Hrun'.
  cbn [fst snd] in *.
  run_handler Hrun.
  all: select_in Hin
         (fun ev : @event PublicKey Keypair Connection Instruction Blockhash =>
            match ev with
            | GetAccountInfo c a => Some (c, a)
            | _ => None
            end).
  all: event_cases Hin.
  all: match goal with
       | Heq : (_, _) = (_, _) |- _ => injection Heq as <- <-
       end.
  all: match goal with
       | Heq : getAccountInfo _ _ _ = _ |- _ =>
           rewrite Heq in Hanswer;
           first [ discriminate Hanswer | injection Hanswer as <- ]
       end.
  all: unfold_run Hrun';
    cbn [without_account PublicKey_new JSON_parse Uint8Array_from bs58_decode
           Keypair_fromSecretKey publicKey Connection_new getAssociatedTokenAddress
           getTokenAccountBalance getAccountInfo
           createAssociatedTokenAccountInstruction createTransferInstruction
           getLatestBlockhash sendAndConfirmTransaction Number_toString] in Hrun';
    reduce_run Hrun'.
  all: repeat first
         [ match goal with
           | Hcatch : top_level_catch _ = _ |- _ =>
               rewrite Hcatch in Hrun'; reduce_run Hrun'
           end
         | run_step Hrun' ].
  all: injection Hrun' as <- <-.
  all: split; [ in_trace | split; reflexivity ].
Qed.


(** X10. The configuration is read only for a POST whose [walletAddress]
    is truthy and parses as an address; and then the four variables are
    each read once, in the order [SENDER_PRIVATE_KEY], [TOKEN_MINT_ADDRESS],
    [RPC_URL], [TOKEN_AMOUNT]. *)
Theorem configuration_is_read_after_validation sdk env req name :
  In (EnvRead name) (trace_of sdk env req) ->
  (exists b walletAddress recipient,
     req_method req = "POST"
     /\ req_body req = Some b
     /\ Json.get b "walletAddress" = Some walletAddress
     /\ Json.truthy walletAddress = true
     /\ PublicKey_new sdk walletAddress = Ok recipient)
  /\ variables_read (trace_of sdk env req)
     = ["SENDER_PRIVATE_KEY"; "TOKEN_MINT_ADDRESS"; "RPC_URL"; "TOKEN_AMOUNT"].
Proof.
  start; intros Hin.
  all: select_in Hin
         (fun ev : @event PublicKey Keypair Connection Instruction Blockhash =>
            match ev with EnvRead n => Some n | _ => None end).
  all: try contradiction.
  all: clear Hin.
  all: split; [ | reflexivity ].
  all: do 3 eexists.
  all: split;
    [ match goal with
      | H : negb (String.eqb ?m "POST") = false |- _ =>
          apply negb_false_iff in H; apply String.eqb_eq in H; exact H
      end
    | ].
  all: split; [ reflexivity | ].
  all: split; [ first [ reflexivity | eassumption ] | ].
  all: split;
    [ match goal with
      | H : negb (Json.truthy _) = false |- _ =>
          apply negb_false_iff in H; exact H
      end
    | first [ reflexivity | eassumption ] ].
Qed.

(** X11. A request reaches the node only under a complete configuration
    whose credential gives a key pair, whose endpoint gives a connection
    and whose mint parses as an address; and every request to the node goes
    through that connection, a submission being signed by that key pair. *)
Theorem node_is_called_under_a_valid_configuration sdk env req :
  existsb is_rpc_call (trace_of sdk env req) = true ->
  EnvVar.truthy (SENDER_PRIVATE_KEY env)
  && EnvVar.truthy (TOKEN_MINT_ADDRESS env)
  && EnvVar.truthy (RPC_URL env) = true
  /\ exists pair connection mint,
       sender_keypair sdk (EnvVar.text (SENDER_PRIVATE_KEY env)) = Ok pair
       /\ Connection_new sdk (EnvVar.text (RPC_URL env)) "confirmed" = Ok connection
       /\ PublicKey_new sdk (JStr (EnvVar.text (TOKEN_MINT_ADDRESS env))) = Ok mint
       /\ forall ev,
            In ev (trace_of sdk env req) -> is_rpc_call ev = true ->
            (exists account, ev = GetTokenAccountBalance connection account)
            \/ (exists account, ev = GetAccountInfo connection account)
            \/ ev = GetLatestBlockhash connection
            \/ exists transaction,
                 ev = SendAndConfirmTransaction connection transaction [pair]
                        "confirmed".
Proof.
  start; intros Hcalled.
  all: cbv [existsb is_rpc_call orb] in Hcalled.
  all: try discriminate Hcalled.
  all: clear Hcalled.
  all: split;
    [ match goal with
      | H : negb ?a || negb ?b || negb ?c = false |- _ =>
          destruct a; [ destruct b; [ destruct c; [ reflexivity | ] | ] | ];
          discriminate H
      end
    | ].
  all: do 3 eexists.
  all: split; [ keypair_made | ].
  all: split; [ first [ reflexivity | eassumption ] | ].
  all: split; [ first [ reflexivity | eassumption ] | ].
  all: intros ev Hin Hrpc.
  all: event_cases Hin.
  all: subst ev; try discriminate Hrpc.
  all: first
         [ left; eexists; reflexivity
         | right; left; eexists; reflexivity
         | right; right; left; reflexivity
         | right; right; right; eexists; reflexivity ].
Qed.


(** X12. When the outer [catch] catches a value that is not an [Error]
    with a message, the handler sends no response: it rejects with the
    TypeError of reading [message] or [includes]. And this is the only way
    in which it sends no response: a run that rejects has caught such a
    value, thrown by a collaborator. *)
Theorem thrown_value_without_message_gets_no_response sdk env req :
  (forall e,
     In (ConsoleError "Airdrop error:" (Some e)) (trace_of sdk env req) ->
     (forall message, e <> JsError message) ->
     exists is_null property,
       outcome_of sdk env req = Rejected (TypeError_read is_null property))
  /\ (forall e',
        outcome_of sdk env req = Rejected e' ->
        exists ev e,
          In ev (trace_of sdk env req)
          /\ raised sdk ev = Some e
          /\ (forall message, e <> JsError message)
          /\ In (ConsoleError "Airdrop error:" (Some e)) (trace_of sdk env req)).
Proof.
  start.
  all: split;
    [ intros value Hin Hno;
      select_in Hin
        (fun ev : @event PublicKey Keypair Connection Instruction Blockhash =>
           match ev with
           | ConsoleError label (Some x) =>
               if String.eqb label "Airdrop error:" then Some x else None
           | _ => None
           end);
      event_cases Hin; subst value;
      match goal with
      | Hcatch : top_level_catch _ = (_, Return _) |- _ =>
          apply top_level_catch_response in Hcatch;
          destruct Hcatch as (message & Hmessage & _);
          unfold TypeError_destructure in Hno;
          contradiction (Hno message Hmessage)
      | Hcatch : top_level_catch _ = (_, Throw _) |- _ =>
          apply top_level_catch_rejection in Hcatch;
          destruct Hcatch as (_ & is_null & property & ->);
          exists is_null, property; reflexivity
      end
    | intros value Hout;
      first
        [ discriminate Hout
        | injection Hout as <-;
          match goal with
          | Hcatch : top_level_catch _ = (_, Throw _) |- _ =>
              pose proof (top_level_catch_rejection _ _ _ Hcatch) as [Hno _]
          end;
          first
            [ exfalso; unfold TypeError_destructure in Hno;
              exact (Hno _ eq_refl)
            | match goal with
              | |- exists ev : ?T, _ =>
                  failing_call T
                    ltac:(fun ev Heq =>
                            exists ev; eexists;
                            (split; [ in_trace | split; [ | split; [ exact Hno | in_trace ] ] ]);
                            cbn [raised]; rewrite Heq; reflexivity)
              end ] ] ].
Qed.

(** X13. Every 500 response comes with an error line on the console; and a
    run that writes nothing to the console ends in one of the four
    refusals: method, missing address, invalid address, insufficient
    balance. *)
Theorem silent_runs_and_logged_errors sdk env req :
  (forall r,
     outcome_of sdk env req = Responded r -> status r = 500 ->
     existsb is_console_error (trace_of sdk env req) = true)
  /\ (existsb is_console_error (trace_of sdk env req) = false ->
      existsb is_console_log (trace_of sdk env req) = false ->
      In (outcome_of sdk env req)
         [method_not_allowed; address_required; invalid_address;
          insufficient_balance]).
Proof.
  start.
  all: split;
    [ intros r' Hout Hstatus;
      first
        [ discriminate Hout
        | injection Hout as <-;
          first [ discriminate Hstatus | reflexivity ] ]
    | intros Hquiet Hsilent;
      first
        [ discriminate Hquiet
        | discriminate Hsilent
        | cbn [In]; unfold method_not_allowed, address_required, invalid_address,
            insufficient_balance, refusal;
          solve [ repeat (first [ left; reflexivity | right ]) ] ] ].
Qed.

(** X14. The answer 400 [insufficient_token_balance] is given only by the
    balance guard: the run queried a balance that is below the configured
    amount, did nothing after that, and wrote nothing to the console. *)
Theorem insufficient_balance_answer_is_sound sdk env req :
  outcome_of sdk env req = insufficient_balance ->
  (exists connection account balance,
     In (GetTokenAccountBalance connection account) (trace_of sdk env req)
     /\ getTokenAccountBalance sdk connection account = Ok balance
     /\ Number.lt (ToNumber (uiAmount balance)) (tokenAmount env) = true)
  /\ existsb follows_balance_check (trace_of sdk env req) = false
  /\ console_output (trace_of sdk env req) = [].
Proof.
  start; intros Hout.
  all: try discriminate Hout.
  all: try match goal with
           | Hcatch : top_level_catch _ = (_, Return _) |- _ =>
               apply top_level_catch_response in Hcatch;
               destruct Hcatch as (message & _ & ->);
               exfalso; exact (classified_is_not_insufficient message Hout)
           end.
  all: split; [ | split; reflexivity ].
  all: do 3 eexists; split; [ in_trace | split; [ eassumption | assumption ] ].
Qed.


(** X15. The outer [catch] answers an [Error] with 400
    [already_claimed_or_has_balance] exactly when [already in use] occurs
    somewhere in its message, in this spelling. *)
Theorem already_in_use_is_found_anywhere message :
  snd (@top_level_catch PublicKey Keypair Connection Instruction Blockhash
         (JsError message))
  = Return {| status := 400; payload := ErrorBody "already_claimed_or_has_balance" |}
  <-> exists before after, message = before ++ "already in use" ++ after.
Proof.
  rewrite <- includes_app, top_level_catch_JsError.
  unfold classified_response. cbn [snd].
  destruct (Str.includes message "already in use"); split;
    first [ reflexivity | discriminate ].
Qed.

(** X16. A balance whose [uiAmount] is [null] counts as zero: the answer is
    400 [insufficient_token_balance] exactly when the configured amount is
    above zero. *)
Theorem absent_ui_amount_counts_as_zero sdk env req connection account balance :
  In (GetTokenAccountBalance connection account) (trace_of sdk env req) ->
  getTokenAccountBalance sdk connection account = Ok balance ->
  uiAmount balance = None ->
  outcome_of sdk env req = insufficient_balance
  <-> is_positive (tokenAmount env) = true.
Proof.
  assert (Hzero : forall y, Number.lt (ToNumber None) y = is_positive y)
    by (intros [[] | [] | | [] m x]; reflexivity).
  start; intros Hin Hanswer Hnull.
  all: select_in Hin
         (fun ev : @event PublicKey Keypair Connection Instruction Blockhash =>
            match ev with
            | GetTokenAccountBalance c a => Some (c, a)
            | _ => None
            end).
  all: event_cases Hin.
  all: match goal with
       | Heq : (_, _) = (_, _) |- _ => injection Heq as <- <-
       end.
  all: match goal with
       | Heq : getTokenAccountBalance _ _ _ = _ |- _ =>
           rewrite Heq in Hanswer;
           first [ discriminate Hanswer | injection Hanswer as <- ]
       end.
  all: match goal with
       | Hlt : Number.lt _ _ = _ |- _ =>
           rewrite Hnull, Hzero in Hlt; unfold tokenAmount; rewrite Hlt
       end.
  all: split; [ | first [ reflexivity | discriminate ] ].
  all: intros Hout; try reflexivity; try discriminate Hout.
  all: match goal with
       | Hcatch : top_level_catch _ = (_, Return _) |- _ =>
           apply top_level_catch_response in Hcatch;
           destruct Hcatch as (message & _ & ->);
           exfalso; exact (classified_is_not_insufficient message Hout)
       end.
Qed.

(** X17. [parseInt] stops at the first character that is not a digit: when
    [TOKEN_AMOUNT] is a decimal text followed by anything else, a
    fraction or a unit for instance, the amount is that of the digits. *)
Theorem amount_is_the_leading_digits env digits rest :
  TOKEN_AMOUNT env = Some (digits ++ rest) ->
  Str.truthy digits = true ->
  all_decimal digits = true ->
  ends_decimal rest = true ->
  tokenAmount env = Str.parseInt digits.
Proof.
  intros Henv Hsome Hdigits Hrest.
  unfold tokenAmount, parse_token_amount. rewrite Henv.
  destruct digits as [ | c digits]; [ discriminate Hsome | ].
  cbn [EnvVar.or_else append Str.truthy].
  pose proof Hdigits as Hall. cbn in Hdigits.
  apply andb_true_iff in Hdigits as [Hc Hdigits].
  destruct (decimal_digit_cases c Hc) as (Hspace & Hminus & Hplus & _ & _ & _).
  unfold Str.parseInt. cbn [Str.trimStart]. rewrite Hspace.
  assert (Hsign : forall tail : string,
            match String c tail with
            | String "-" r => (true, r)
            | String "+" r => (false, r)
            | _ => (false, String c tail)
            end = (false, String c tail)).
  { intros tail. destruct c as [[] [] [] [] [] [] [] []];
      first [ reflexivity | contradiction Hminus; reflexivity
            | contradiction Hplus; reflexivity ]. }
  rewrite !Hsign.
  assert (Hradix : forall tail : string,
            ends_decimal tail = true \/
            (exists c' tail', tail = String c' tail' /\ is_decimal_digit c' = true) ->
            match String c tail with
            | String "0" (String "x" r) => (16, r)
            | String "0" (String "X" r) => (16, r)
            | _ => (10, String c tail)
            end = (10, String c tail)).
  { intros tail Htail.
    destruct tail as [ | c' tail'].
    - destruct c as [[] [] [] [] [] [] [] []]; reflexivity.
    - assert (Hx : c' <> "x"%char /\ c' <> "X"%char).
      { destruct Htail as [Hend | (c'' & tail'' & Heq & Hd)].
        - cbn in Hend. apply andb_true_iff in Hend as [Hend HX].
          apply andb_true_iff in Hend as [_ Hx].
          split; intros ->; discriminate.
        - injection Heq as <- <-.
          destruct (decimal_digit_cases c' Hd) as (_ & _ & _ & Hx & HX & _).
          split; assumption. }
      destruct Hx as [Hx HX].
      destruct c as [[] [] [] [] [] [] [] []]; try reflexivity.
      destruct c' as [[] [] [] [] [] [] [] []];
        first [ reflexivity | contradiction Hx; reflexivity
              | contradiction HX; reflexivity ]. }
  rewrite (Hradix digits), (Hradix (digits ++ rest)).
  - change (String c (digits ++ rest)) with (String c digits ++ rest).
    rewrite (read_digits_app (String c digits) rest None Hall Hrest).
    reflexivity.
  - destruct digits as [ | c' digits'].
    + left. exact Hrest.
    + right. cbn in Hdigits. apply andb_true_iff in Hdigits as [Hc' _].
      exists c', (digits' ++ rest). split; [ reflexivity | exact Hc' ].
  - destruct digits as [ | c' digits'].
    + left. reflexivity.
    + right. cbn in Hdigits. apply andb_true_iff in Hdigits as [Hc' _].
      exists c', digits'. split; [ reflexivity | exact Hc' ].
Qed.

End Further.

(** * The properties on concrete runs *)

Module Runs.

Import Double.

(** Membership in a trace that is computed. *)
Ltac computed_in :=
  vm_compute; solve [ repeat (first [ left; reflexivity | right ]) ].

(** ** The primitives *)

Example parseInt_default : Str.parseInt "25000" = Number.of_Z 25000.
Proof. reflexivity. Qed.

Example parseInt_prefix : Str.parseInt "  12abc" = Number.of_Z 12.
Proof. reflexivity. Qed.

Example parseInt_hexadecimal : Str.parseInt "0x1F" = Number.of_Z 31.
Proof. reflexivity. Qed.

Example parseInt_not_a_number : Str.parseInt "abc" = Number.NaN.
Proof. reflexivity. Qed.

Example includes_already_in_use :
  Str.includes (thrown_text account_in_use) "already in use" = true.
Proof. reflexivity. Qed.

Example default_amount_times_1e9 :
  Number.to_Z (Number.mul (Number.of_Z 25000) Number.Math_pow_10_9)
  = Some 25000000000000.
Proof. vm_compute. reflexivity. Qed.

(** ** C1 *)

Lemma transfer_amount_witness :
  In (CreateTransferInstruction sender_account recipient_account sender_address
        airdrop_amount)
     (trace_of (sdk (funded 25000000000 6 None)) config request)
  /\ airdrop_amount = Number.mul (Str.parseInt "25000") (Number.of_Z (10 ^ 9)).
Proof.
  assert (Hin : In (CreateTransferInstruction sender_account recipient_account
                      sender_address airdrop_amount)
                   (trace_of (sdk (funded 25000000000 6 None)) config request))
    by computed_in.
  split.
  - exact Hin.
  - exact (proj1 (transfer_amount_is_amount_times_1e9 _ _ _ _ _ _ _ Hin)).
Defined.

(** ** C2 *)

(** Without configuration, a request whose address does not parse is
    answered 400, not 500 [Server configuration error]. *)
Lemma configuration_error_depends_on_body :
  EnvVar.truthy (SENDER_PRIVATE_KEY unconfigured) = false
  /\ outcome_of (sdk (funded 25000000000 6 None)) unconfigured
       (post (JStr "not-an-address"))
     = invalid_address
  /\ outcome_of (sdk (funded 25000000000 6 None)) unconfigured
       (post (JStr "not-an-address"))
     <> configuration_error.
Proof.
  split; [ reflexivity | ].
  split; [ vm_compute; reflexivity | vm_compute; discriminate ].
Qed.

Lemma configuration_error_witness :
  req_method request = "POST"
  /\ EnvVar.truthy (SENDER_PRIVATE_KEY unconfigured)
     && EnvVar.truthy (TOKEN_MINT_ADDRESS unconfigured)
     && EnvVar.truthy (RPC_URL unconfigured) = false
  /\ outcome_of (sdk (funded 25000000000 6 None)) unconfigured request
     = configuration_error.
Proof.
  split; [ reflexivity | split; [ reflexivity | ] ].
  exact (configuration_error_follows_validation
           (sdk (funded 25000000000 6 None)) unconfigured request
           eq_refl eq_refl).
Defined.

(** ** C3 *)

Lemma insufficient_balance_witness :
  In (GetTokenAccountBalance endpoint sender_account) (trace_of (sdk poor) config request)
  /\ getTokenAccountBalance (sdk poor) endpoint sender_account
     = Ok (balance 24999999999 6)
  /\ Number.lt (ToNumber (uiAmount (balance 24999999999 6))) (tokenAmount config) = true
  /\ outcome_of (sdk poor) config request = insufficient_balance
  /\ existsb submits (trace_of (sdk poor) config request) = false.
Proof.
  assert (Hin : In (GetTokenAccountBalance endpoint sender_account)
                   (trace_of (sdk poor) config request)) by computed_in.
  assert (Hbelow : Number.lt (ToNumber (uiAmount (balance 24999999999 6)))
                     (tokenAmount config) = true) by (vm_compute; reflexivity).
  split; [ exact Hin | split; [ reflexivity | split; [ exact Hbelow | ] ] ].
  exact (proj1 (insufficient_balance_is_refused (sdk poor) config request)
           endpoint sender_account (balance 24999999999 6) Hin eq_refl Hbelow).
Defined.

(** ** C4 *)

(** The exception of [JSON.parse] on the credential is thrown between the
    reading of the configuration and the submission, and the answer is not
    the one of the outer [catch]. *)
Lemma parse_exception_is_not_classified :
  In (JsonParse malformed_key)
     (trace_of (sdk (funded 25000000000 6 None)) (configured malformed_key None) request)
  /\ raised (sdk (funded 25000000000 6 None)) (JsonParse malformed_key)
     = Some (JsError (syntax_error (Some "x"%char) malformed_key))
  /\ outcome_of (sdk (funded 25000000000 6 None)) (configured malformed_key None) request
     = invalid_sender_key
  /\ outcome_of (sdk (funded 25000000000 6 None)) (configured malformed_key None) request
     <> classified (syntax_error (Some "x"%char) malformed_key).
Proof.
  split; [ computed_in | ].
  split; [ reflexivity | ].
  split; [ vm_compute; reflexivity | vm_compute; discriminate ].
Qed.

Lemma propagated_exception_witness :
  In submission_call
     (after_keypair (trace_of (sdk (failing account_in_use)) config request))
  /\ is_account_query submission_call = false
  /\ raised (sdk (failing account_in_use)) submission_call = Some account_in_use
  /\ outcome_of (sdk (failing account_in_use)) config request = already_claimed.
Proof.
  assert (Hin : In submission_call
                   (after_keypair
                      (trace_of (sdk (failing account_in_use)) config request)))
    by computed_in.
  split; [ exact Hin | split; [ reflexivity | split; [ reflexivity | ] ] ].
  exact (propagated_exception_is_classified (sdk (failing account_in_use)) config
           request submission_call _ Hin eq_refl eq_refl).
Defined.

(** When the submission throws a value that has no [message], the outer
    [catch] throws in turn, at [error.message.includes], and the request
    gets no response. *)
Example thrown_without_message_is_rejected :
  In (ConsoleError "Airdrop error:" (Some (ThrownOther "timeout")))
     (trace_of (sdk (failing (ThrownOther "timeout"))) config request)
  /\ outcome_of (sdk (failing (ThrownOther "timeout"))) config request
     = Rejected (TypeError_read false "includes").
Proof. split; [ computed_in | vm_compute; reflexivity ]. Qed.

(** ** C5 *)

Lemma assembled_instructions_witness :
  In (GetAccountInfo endpoint recipient_account)
     (trace_of (sdk (funded 25000000000 6 None)) config request)
  /\ In (CreateTransferInstruction sender_account recipient_account sender_address
           airdrop_amount)
        (trace_of (sdk (funded 25000000000 6 None)) config request)
  /\ createTransferInstruction (sdk (funded 25000000000 6 None)) sender_account
       recipient_account sender_address airdrop_amount
     = Ok (Transfer sender_account recipient_account sender_address airdrop_amount)
  /\ List.length (added (trace_of (sdk (funded 25000000000 6 None)) config request)) = 2%nat.
Proof.
  assert (Hquery : In (GetAccountInfo endpoint recipient_account)
                      (trace_of (sdk (funded 25000000000 6 None)) config request))
    by computed_in.
  assert (Hcall : In (CreateTransferInstruction sender_account recipient_account
                        sender_address airdrop_amount)
                     (trace_of (sdk (funded 25000000000 6 None)) config request))
    by computed_in.
  split; [ exact Hquery | split; [ exact Hcall | split; [ reflexivity | ] ] ].
  destruct (assembled_instructions (sdk (funded 25000000000 6 None)) config request
              endpoint recipient_account sender_account sender_address
              airdrop_amount _ Hquery Hcall eq_refl)
    as [(recipient' & mint' & create & _ & _ & Hadded) _].
  rewrite Hadded. reflexivity.
Defined.

(** ** C6 *)

(** The empty string is not an address, and the answer to it is that the
    address is required. *)
Lemma empty_address_is_required :
  PublicKey_new (sdk (funded 25000000000 6 None)) (JStr "")
  = Raise (JsError "Invalid public key input")
  /\ handler (sdk (funded 25000000000 6 None)) config (post (JStr ""))
     = ([], address_required)
  /\ outcome_of (sdk (funded 25000000000 6 None)) config (post (JStr ""))
     <> invalid_address.
Proof.
  split; [ reflexivity | ].
  split; [ vm_compute; reflexivity | vm_compute; discriminate ].
Qed.

Lemma unparsable_address_witness :
  req_method (post (JStr "not-an-address")) = "POST"
  /\ Json.truthy (JStr "not-an-address") = true
  /\ PublicKey_new (sdk (funded 25000000000 6 None)) (JStr "not-an-address")
     = Raise (JsError "Non-base58 character")
  /\ handler (sdk (funded 25000000000 6 None)) config (post (JStr "not-an-address"))
     = ([NewPublicKey (JStr "not-an-address")], invalid_address).
Proof.
  split; [ reflexivity | split; [ reflexivity | split; [ reflexivity | ] ] ].
  exact (unparsable_address_is_refused (sdk (funded 25000000000 6 None)) config
           (post (JStr "not-an-address")) _ _ _
           eq_refl eq_refl eq_refl eq_refl eq_refl).
Defined.

(** ** C7 *)

Lemma sender_key_encodings_witness :
  req_method request = "POST"
  /\ PublicKey_new (sdk (funded 25000000000 6 None)) (JStr recipient) = Ok recipient
  /\ (Str.startsWith malformed_key "[" = true
      /\ sender_keypair (sdk (funded 25000000000 6 None)) malformed_key
         = Raise (JsError (syntax_error (Some "x"%char) malformed_key))
      /\ In (JsonParse malformed_key)
            (trace_of (sdk (funded 25000000000 6 None)) (configured malformed_key None)
               request)
      /\ outcome_of (sdk (funded 25000000000 6 None)) (configured malformed_key None)
           request
         = invalid_sender_key)
  /\ (Str.startsWith sender_key "[" = false
      /\ In (Bs58Decode sender_key)
            (trace_of (sdk (funded 25000000000 6 None)) config request)
      /\ existsb is_json_parse
           (trace_of (sdk (funded 25000000000 6 None)) config request)
         = false).
Proof.
  pose proof (sender_key_encodings (sdk (funded 25000000000 6 None))
                (configured malformed_key None) request _ _ _
                eq_refl eq_refl eq_refl eq_refl eq_refl eq_refl) as Hjson.
  pose proof (sender_key_encodings (sdk (funded 25000000000 6 None)) config request
                _ _ _ eq_refl eq_refl eq_refl eq_refl eq_refl eq_refl) as Hbase58.
  split; [ reflexivity | split; [ reflexivity | split ] ].
  - split; [ reflexivity | split; [ reflexivity | split ] ].
    + exact (proj1 (proj1 Hjson)).
    + exact (proj1 (proj2 Hjson)).
  - split; [ reflexivity | exact (proj1 Hbase58) ].
Defined.

(** ** C8 *)

(** A credential that [JSON.parse] rejects is quoted in the message of the
    SyntaxError, and the handler writes that error to the console. *)
Lemma malformed_credential_is_logged :
  SENDER_PRIVATE_KEY (configured malformed_key None) = Some malformed_key
  /\ In (ConsoleError "Error parsing private key:"
           (Some (JsError (syntax_error (Some "x"%char) malformed_key))))
        (trace_of (sdk (funded 25000000000 6 None)) (configured malformed_key None)
           request)
  /\ existsb (fun s => Str.includes s malformed_key)
       (visible_strings
          (handler (sdk (funded 25000000000 6 None)) (configured malformed_key None)
             request))
     = true.
Proof.
  split; [ reflexivity | ].
  split; [ computed_in | vm_compute; reflexivity ].
Qed.

Lemma secret_witness :
  forallb (fun s => negb (Str.includes s sender_key))
    (visible_strings (handler (sdk (failing account_in_use)) config request))
  = true.
Proof.
  apply forallb_forall. intros s Hs. apply negb_true_iff.
  apply (secret_is_shown_only_by_collaborators (sdk (failing account_in_use)) config
           request sender_key); [ | | | exact Hs ].
  - intros text Htext. vm_compute in Htext.
    repeat (destruct Htext as [<- | Htext]; [ vm_compute; reflexivity | ]).
    contradiction.
  - intros ev Hev e. vm_compute in Hev.
    repeat (destruct Hev as [<- | Hev];
            [ vm_compute; intros He;
              first [ discriminate He
                    | injection He as <-; vm_compute; reflexivity ] | ]).
    contradiction.
  - intros ev Hev signature. vm_compute in Hev.
    repeat (destruct Hev as [<- | Hev];
            [ vm_compute; intros Hsig; discriminate Hsig | ]).
    contradiction.
Defined.

(** ** C9 *)


(** ** C10 *)



(** With a client that does not check the amount, the run succeeds and
    reports NaN. *)
Lemma unparsable_amount_is_reported :
  outcome_of (sdk (lenient 25000000000 6)) (configured sender_key (Some "abc")) request
  = Responded
      {| status := 200;
         payload := SuccessBody "5VERv8NMvzbJMEkV8xnrLkEaWRtSz9CosKDYjCJjBRnb"
                      Number.NaN "Successfully airdropped NaN DUCK tokens" |}.
Proof. vm_compute. reflexivity. Qed.

End Runs.

(** * The further properties on concrete runs *)

Module Cases.

Import Double.

(** Membership in a trace that is computed. *)
Ltac found :=
  vm_compute; solve [ repeat (first [ left; reflexivity | right ]) ].

(** ** The method and the body *)

Lemma method_gate_witness :
  req_method get_request <> "POST"
  /\ handler (sdk (funded 25000000000 6 None)) config get_request
     = ([], method_not_allowed).
Proof.
  assert (Hmethod : req_method get_request <> "POST") by discriminate.
  split; [ exact Hmethod | ].
  exact (proj1 (method_gate (sdk (funded 25000000000 6 None)) config get_request)
           Hmethod).
Defined.

Lemma absent_address_witness :
  req_method empty_object = "POST"
  /\ address_is_absent (JObj []) = true
  /\ handler (sdk (funded 25000000000 6 None)) config empty_object
     = ([], address_required).
Proof.
  split; [ reflexivity | split; [ reflexivity | ] ].
  exact (absent_address_is_required (sdk (funded 25000000000 6 None)) config
           empty_object (JObj []) eq_refl eq_refl eq_refl eq_refl).
Defined.

Lemma missing_body_witness :
  req_method no_body = "POST"
  /\ req_body no_body = None
  /\ handler (sdk (funded 25000000000 6 None)) config no_body
     = ([ConsoleError "Airdrop error:" (Some (TypeError_destructure false))],
        refusal 500
          "Cannot destructure property 'walletAddress' of 'req.body' as it is undefined.").
Proof.
  split; [ reflexivity | split; [ reflexivity | ] ].
  exact (missing_body_is_an_internal_error (sdk (funded 25000000000 6 None)) config
           no_body false eq_refl eq_refl).
Defined.

(** ** The responses *)

Lemma response_statuses_witness :
  outcome_of (sdk (funded 25000000000 6 None)) config request = Responded success
  /\ ((status success = 200
       /\ exists signature,
            payload success
            = SuccessBody signature (tokenAmount config)
                (success_message (sdk (funded 25000000000 6 None)) (tokenAmount config)))
      \/ ((status success = 400 \/ status success = 405 \/ status success = 500)
          /\ exists error, payload success = ErrorBody error)).
Proof.
  assert (Hout : outcome_of (sdk (funded 25000000000 6 None)) config request
                 = Responded success) by (vm_compute; reflexivity).
  split; [ exact Hout | ].
  exact (response_statuses (sdk (funded 25000000000 6 None)) config request success
           Hout).
Defined.

(** ** The submission *)

Lemma success_witness :
  In submission_call (trace_of (sdk (funded 25000000000 6 None)) config request)
  /\ sendAndConfirmTransaction (sdk (funded 25000000000 6 None)) endpoint
       airdrop_transaction [sender_pair] "confirmed"
     = Ok signature
  /\ outcome_of (sdk (funded 25000000000 6 None)) config request
     = Responded
         {| status := 200;
            payload := SuccessBody signature (tokenAmount config)
                         (success_message (sdk (funded 25000000000 6 None))
                            (tokenAmount config)) |}
  /\ In (ConsoleLog ("Airdrop successful: " ++ signature))
        (trace_of (sdk (funded 25000000000 6 None)) config request).
Proof.
  assert (Hin : In submission_call
                   (trace_of (sdk (funded 25000000000 6 None)) config request))
    by found.
  split; [ exact Hin | split; [ reflexivity | ] ].
  exact (proj1 (success_reports_the_confirmed_signature
                  (sdk (funded 25000000000 6 None)) config request)
           endpoint airdrop_transaction [sender_pair] "confirmed" signature
           Hin eq_refl).
Defined.

Lemma submission_witness :
  In submission_call (trace_of (sdk (funded 25000000000 6 None)) config request)
  /\ Connection_new (sdk (funded 25000000000 6 None)) (EnvVar.text (RPC_URL config))
       "confirmed"
     = Ok endpoint
  /\ feePayer airdrop_transaction = Some sender_address
  /\ recentBlockhash airdrop_transaction = Some recent_blockhash.
Proof.
  assert (Hin : In submission_call
                   (trace_of (sdk (funded 25000000000 6 None)) config request))
    by found.
  destruct (submission_is_the_senders (sdk (funded 25000000000 6 None)) config request
              endpoint airdrop_transaction [sender_pair] "confirmed" Hin)
    as (_ & Hconnection & _ & _).
  split; [ exact Hin | split; [ exact Hconnection | split; reflexivity ] ].
Defined.

Lemma transfer_accounts_witness :
  In transfer_call (trace_of (sdk (funded 25000000000 6 None)) config request)
  /\ exists b walletAddress recipient mint pair connection,
       req_body request = Some b
       /\ Json.get b "walletAddress" = Some walletAddress
       /\ PublicKey_new (sdk (funded 25000000000 6 None)) walletAddress = Ok recipient
       /\ PublicKey_new (sdk (funded 25000000000 6 None))
            (JStr (EnvVar.text (TOKEN_MINT_ADDRESS config)))
          = Ok mint
       /\ sender_keypair (sdk (funded 25000000000 6 None))
            (EnvVar.text (SENDER_PRIVATE_KEY config))
          = Ok pair
       /\ getAssociatedTokenAddress (sdk (funded 25000000000 6 None)) mint
            (publicKey (sdk (funded 25000000000 6 None)) pair)
          = Ok sender_account
       /\ getAssociatedTokenAddress (sdk (funded 25000000000 6 None)) mint recipient
          = Ok recipient_account
       /\ sender_address = publicKey (sdk (funded 25000000000 6 None)) pair
       /\ In (GetTokenAccountBalance connection sender_account)
             (trace_of (sdk (funded 25000000000 6 None)) config request)
       /\ In (GetAccountInfo connection recipient_account)
             (trace_of (sdk (funded 25000000000 6 None)) config request).
Proof.
  assert (Hin : In transfer_call
                   (trace_of (sdk (funded 25000000000 6 None)) config request))
    by found.
  split; [ exact Hin | ].
  exact (transfer_is_between_the_associated_accounts
           (sdk (funded 25000000000 6 None)) config request
           sender_account recipient_account sender_address airdrop_amount Hin).
Defined.

(** ** The account of the recipient *)

Lemma failed_account_query_witness :
  In account_call
     (trace_of (sdk (unreachable_account node_is_down)) config request)
  /\ getAccountInfo (sdk (unreachable_account node_is_down)) endpoint recipient_account
     = Raise node_is_down
  /\ In (ConsoleError "Error checking recipient token account:" (Some node_is_down))
        (trace_of (sdk (unreachable_account node_is_down)) config request)
  /\ outcome_of (sdk (unreachable_account node_is_down)) config request
     = outcome_of (without_account (sdk (unreachable_account node_is_down))) config
         request
  /\ outcome_of (sdk (unreachable_account node_is_down)) config request
     = Responded success.
Proof.
  assert (Hin : In account_call
                   (trace_of (sdk (unreachable_account node_is_down)) config request))
    by found.
  destruct (failed_account_query_counts_as_no_account
              (sdk (unreachable_account node_is_down)) config request
              endpoint recipient_account node_is_down Hin eq_refl)
    as (Hlogged & Hsame & _).
  split; [ exact Hin | split; [ reflexivity | ] ].
  split; [ exact Hlogged | split; [ exact Hsame | vm_compute; reflexivity ] ].
Defined.

(** ** The configuration *)

Lemma configuration_read_witness :
  In (EnvRead "TOKEN_AMOUNT")
     (trace_of (sdk (funded 25000000000 6 None)) unconfigured request)
  /\ variables_read (trace_of (sdk (funded 25000000000 6 None)) unconfigured request)
     = ["SENDER_PRIVATE_KEY"; "TOKEN_MINT_ADDRESS"; "RPC_URL"; "TOKEN_AMOUNT"].
Proof.
  assert (Hin : In (EnvRead "TOKEN_AMOUNT")
                   (trace_of (sdk (funded 25000000000 6 None)) unconfigured request))
    by found.
  split; [ exact Hin | ].
  exact (proj2 (configuration_is_read_after_validation
                  (sdk (funded 25000000000 6 None)) unconfigured request
                  "TOKEN_AMOUNT" Hin)).
Defined.

Lemma node_is_called_witness :
  existsb is_rpc_call (trace_of (sdk poor) config request) = true
  /\ EnvVar.truthy (SENDER_PRIVATE_KEY config)
     && EnvVar.truthy (TOKEN_MINT_ADDRESS config)
     && EnvVar.truthy (RPC_URL config) = true.
Proof.
  assert (Hcalled : existsb is_rpc_call (trace_of (sdk poor) config request) = true)
    by (vm_compute; reflexivity).
  split; [ exact Hcalled | ].
  exact (proj1 (node_is_called_under_a_valid_configuration (sdk poor) config request
                  Hcalled)).
Defined.

(** ** Exceptions *)

Lemma no_response_witness :
  In (ConsoleError "Airdrop error:" (Some (ThrownOther "timeout")))
     (trace_of (sdk (failing (ThrownOther "timeout"))) config request)
  /\ (forall message, ThrownOther "timeout" <> JsError message)
  /\ exists is_null property,
       outcome_of (sdk (failing (ThrownOther "timeout"))) config request
       = Rejected (TypeError_read is_null property).
Proof.
  assert (Hin : In (ConsoleError "Airdrop error:" (Some (ThrownOther "timeout")))
                   (trace_of (sdk (failing (ThrownOther "timeout"))) config request))
    by found.
  assert (Hno : forall message, ThrownOther "timeout" <> JsError message)
    by (intros message; discriminate).
  split; [ exact Hin | split; [ exact Hno | ] ].
  exact (proj1 (thrown_value_without_message_gets_no_response
                  (sdk (failing (ThrownOther "timeout"))) config request)
           (ThrownOther "timeout") Hin Hno).
Defined.

Lemma logged_error_witness :
  outcome_of (sdk (funded 25000000000 6 None)) unconfigured request
  = configuration_error
  /\ existsb is_console_error
       (trace_of (sdk (funded 25000000000 6 None)) unconfigured request)
     = true.
Proof.
  assert (Hout : outcome_of (sdk (funded 25000000000 6 None)) unconfigured request
                 = configuration_error) by (vm_compute; reflexivity).
  split; [ exact Hout | ].
  exact (proj1 (silent_runs_and_logged_errors (sdk (funded 25000000000 6 None))
                  unconfigured request)
           _ Hout eq_refl).
Defined.

Lemma already_in_use_witness :
  thrown_text account_in_use
  = "failed to send transaction: Allocate: account Address " ++ "already in use" ++ ""
  /\ snd (@top_level_catch string (list Byte.byte) string instruction string
            account_in_use)
     = Return {| status := 400; payload := ErrorBody "already_claimed_or_has_balance" |}.
Proof.
  split; [ reflexivity | ].
  exact (proj2 (already_in_use_is_found_anywhere (thrown_text account_in_use))
           (ex_intro _ "failed to send transaction: Allocate: account Address "
              (ex_intro _ "" eq_refl))).
Defined.

(** ** The balance *)

Lemma insufficient_balance_answer_witness :
  outcome_of (sdk poor) config request = insufficient_balance
  /\ existsb follows_balance_check (trace_of (sdk poor) config request) = false
  /\ console_output (trace_of (sdk poor) config request) = [].
Proof.
  assert (Hout : outcome_of (sdk poor) config request = insufficient_balance)
    by (vm_compute; reflexivity).
  split; [ exact Hout | ].
  exact (proj2 (insufficient_balance_answer_is_sound (sdk poor) config request Hout)).
Defined.

Lemma absent_ui_amount_witness :
  In balance_call (trace_of (sdk uncomputed) config request)
  /\ is_positive (tokenAmount config) = true
  /\ outcome_of (sdk uncomputed) config request = insufficient_balance.
Proof.
  assert (Hin : In balance_call (trace_of (sdk uncomputed) config request))
    by found.
  assert (Hpositive : is_positive (tokenAmount config) = true)
    by (vm_compute; reflexivity).
  split; [ exact Hin | split; [ exact Hpositive | ] ].
  exact (proj2 (absent_ui_amount_counts_as_zero (sdk uncomputed) config request
                  endpoint sender_account _ Hin eq_refl eq_refl)
           Hpositive).
Defined.

(** ** The amount *)

Lemma leading_digits_witness :
  TOKEN_AMOUNT (configured sender_key (Some "25000.75")) = Some ("25000" ++ ".75")
  /\ all_decimal "25000" = true
  /\ ends_decimal ".75" = true
  /\ tokenAmount (configured sender_key (Some "25000.75")) = Str.parseInt "25000".
Proof.
  split; [ reflexivity | split; [ reflexivity | split; [ reflexivity | ] ] ].
  exact (amount_is_the_leading_digits (configured sender_key (Some "25000.75"))
           "25000" ".75" eq_refl eq_refl eq_refl eq_refl).
Defined.

End Cases.
